(** * envd: the Docker lifecycle client (package docker)

    A shallow embedding of [generalClient] and of the functions it is
    built from: [Destroy], [PauseContainer], [ResumeContainer],
    [IsRunning], [WaitUntilRunning], [StartEnvd] and [deviceRequests].

    Go strings are byte strings ([string]), Go [int] and [time.Duration]
    values are [Z], a Go map is a [gmap], a Go set (map to [struct{}]) is
    a [gset], a slice is a [list].  A Go function returning [(v, error)]
    returns the pair of [v] and an [option error] ([None] is [nil]). *)

From Stdlib Require Import ZArith Lia Ascii String.
From stdpp Require Import base strings list gmap pretty.

Local Open Scope string_scope.
Local Open Scope list_scope.
Local Open Scope Z_scope.

(** ** Go standard library: package strings *)

Module strings.

(** [strings.Contains(s, substr)]. *)
Fixpoint Contains (s substr : string) : bool :=
  String.prefix substr s ||
  match s with
  | EmptyString => false
  | String _ s' => Contains s' substr
  end.

(** [strings.Split(s, sep)] for a separator of one byte, the only use
    the client makes of it.  The result is never empty: a string with
    [n] separators has [n + 1] fields. *)
Fixpoint Split (s : string) (sep : ascii) : list string :=
  match s with
  | EmptyString => [EmptyString]
  | String c s' =>
      if Ascii.eqb c sep then EmptyString :: Split s' sep
      else match Split s' sep with
           | f :: fs => String c f :: fs
           | [] => [String c EmptyString]
           end
  end.

(** [strings.Join(elems, sep)]. *)
Fixpoint Join (elems : list string) (sep : string) : string :=
  match elems with
  | [] => ""
  | [e] => e
  | e :: es => e +:+ sep +:+ Join es sep
  end.

End strings.

(** ** Go standard library: package path/filepath (Unix separator) *)

Module filepath.

Definition slash : ascii := "/"%char.

Definition isDot (e : string) : bool := String.eqb e ".".
Definition isDotDot (e : string) : bool := String.eqb e "..".
Definition isEmpty (e : string) : bool := String.eqb e "".

(** The lexical rules of [filepath.Clean] on the elements of a path:
    empty and [.] elements go away, [..] removes the element before
    it, a [..] that starts a rooted path goes away, a [..] that starts
    a relative path stays.  [out] is the cleaned prefix, last element
    first. *)
Fixpoint cleanElems (rooted : bool) (elems out : list string) : list string :=
  match elems with
  | [] => rev out
  | e :: es =>
      if isEmpty e || isDot e then cleanElems rooted es out
      else if isDotDot e then
        match out with
        | o :: out' =>
            if isDotDot o then cleanElems rooted es (e :: out)
            else cleanElems rooted es out'
        | [] =>
            if rooted then cleanElems rooted es []
            else cleanElems rooted es [e]
        end
      else cleanElems rooted es (e :: out)
  end.

(** [filepath.Clean(path)]. *)
Definition Clean (path : string) : string :=
  match path with
  | EmptyString => "."
  | String c _ =>
      let rooted := Ascii.eqb c slash in
      let out := strings.Join (cleanElems rooted (strings.Split path slash) []) "/" in
      if rooted then "/" +:+ out
      else if isEmpty out then "." else out
  end.

(** [filepath.Join(elem...)]: the non-empty elements joined by the
    separator, then cleaned; the empty string when there is none. *)
Definition Join (elems : list string) : string :=
  match filter (fun e => negb (isEmpty e) = true) elems with
  | [] => ""
  | es => Clean (strings.Join es "/")
  end.

(** [filepath.Base(path)]: the last element of the path, trailing
    separators removed; [.] for the empty path, the separator for a
    path of separators only. *)
Definition Base (path : string) : string :=
  match path with
  | EmptyString => "."
  | _ =>
      match rev (filter (fun e => negb (isEmpty e) = true) (strings.Split path slash)) with
      | [] => "/"
      | e :: _ => e
      end
  end.

End filepath.

(** ** Package fileutil of the repository *)

Module fileutil.

(** Modelled from the spec: [fileutil.Base] (pkg/util/fileutil is not
    among the sources at hand).  The spec calls its result the
    build-context base name: the last element of the path, as
    [filepath.Base] computes it. *)
Definition Base (dir : string) : string := filepath.Base dir.

End fileutil.

(** ** Package github.com/cockroachdb/errors *)

(** An error is a root cause with a message, wrapped any number of times
    with a message prefix. *)
Inductive error : Type :=
| errNew (msg : string)
| errWrap (cause : error) (msg : string).

Module errors.

Definition New (msg : string) : error := errNew msg.

Definition Wrap (err : error) (msg : string) : error := errWrap err msg.

(** [errors.UnwrapAll(err)]: the innermost cause. *)
Fixpoint UnwrapAll (err : error) : error :=
  match err with
  | errNew _ => err
  | errWrap cause _ => UnwrapAll cause
  end.

End errors.

(** [err.Error()]. *)
Fixpoint Error (err : error) : string :=
  match err with
  | errNew msg => msg
  | errWrap cause msg => msg +:+ ": " +:+ Error cause
  end.

(** ** Package context and the clock *)

(** A [context.Context] as far as this client sees it: the instant at
    which it is done, if it has a deadline.  Instants and durations are
    nanoseconds. *)
Record Ctx : Type := { deadline : option Z }.

Definition Background : Ctx := {| deadline := None |}.

(** [context.WithTimeout(parent, timeout)] at instant [t]: a child is
    done no later than its parent. *)
Definition WithTimeout (parent : Ctx) (timeout : Z) (t : Z) : Ctx :=
  {| deadline := Some (match deadline parent with
                       | Some d => Z.min d (t + timeout)
                       | None => t + timeout
                       end) |}.

Definition Second : Z := 1000000000.

Definition localhost : string := "127.0.0.1".

Definition interval : Z := 1 * Second.

(** ** Docker API types, the fields this package reads or writes *)

Record ContainerState : Type := { Running : bool }.

Record NetworkSettings : Type := { IPAddress : string }.

Record ContainerJSONBase : Type := {
  Name : string;
  State : option ContainerState          (* State *ContainerState *)
}.

(** [types.ContainerJSON] embeds [*ContainerJSONBase]: the promoted
    fields [Name] and [State] are read through that pointer, which is nil
    in the zero value. *)
Record ContainerJSON : Type := {
  Base : option ContainerJSONBase;       (* *ContainerJSONBase, embedded *)
  Network : option NetworkSettings       (* NetworkSettings *NetworkSettings *)
}.

Definition zeroContainerJSON : ContainerJSON := {| Base := None; Network := None |}.

Definition TypeBind : string := "bind".

Record Mount : Type := { Type_ : string; Source : string; Target : string }.

Definition zeroMount : Mount := {| Type_ := ""; Source := ""; Target := "" |}.

Record PortBinding : Type := { HostIP : string; HostPort : string }.

Record DeviceRequest : Type := {
  Driver : string;
  Count : Z;
  Capabilities : list (list string)
}.

Record Config : Type := {
  Image : string;
  User : string;
  ExposedPorts : gset string;            (* nat.PortSet *)
  WorkingDir : string;
  Entrypoint : list string;
  Labels : gmap string string
}.

Record HostConfig : Type := {
  PortBindings : gmap string (list PortBinding);   (* nat.PortMap *)
  Mounts : list Mount;
  DeviceRequests : list DeviceRequest
}.

Record ContainerCreateCreatedBody : Type := { ID : string; Warnings : list string }.

(** [ir.Graph]: the client only tests the two service configurations
    against nil and hands the graph on to [labels]. *)
Inductive JupyterConfigT : Type := mkJupyterConfig.
Inductive RStudioServerConfigT : Type := mkRStudioServerConfig.

Record Graph : Type := {
  JupyterConfig : option JupyterConfigT;
  RStudioServerConfig : option RStudioServerConfigT
}.

(** ** The world outside the client *)

(** One entry per request sent to the Docker host or to the port
    allocator. *)
Inductive Call : Type :=
| CallKill (ctx : Ctx) (name signal : string)
| CallRemove (ctx : Ctx) (name : string)
| CallPause (ctx : Ctx) (name : string)
| CallUnpause (ctx : Ctx) (name : string)
| CallInspect (ctx : Ctx) (name : string)
| CallCreate (ctx : Ctx) (config : Config) (hostConfig : HostConfig) (name : string)
| CallStart (ctx : Ctx) (id : string)
| CallGetFreePort.

(** The embedded [*client.Client] and the packages of the repository the
    client calls: each request maps the state [H] of the outside world to
    an answer and a new state.  [SSHPortInContainer] and its siblings are
    the constants of package config, [labels] is the function of this
    package that fills the container labels, [GetFreePort] is package
    netutil, [IsErrNotFound] is the Docker client's predicate and
    [DurationString] is [time.Duration.String]. *)
Record Client (H : Type) : Type := {
  ContainerKill : Ctx -> string -> string -> H -> option error * H;
  ContainerRemove : Ctx -> string -> H -> option error * H;
  ContainerPause : Ctx -> string -> H -> option error * H;
  ContainerUnpause : Ctx -> string -> H -> option error * H;
  ContainerInspect : Ctx -> string -> H -> (ContainerJSON * option error) * H;
  ContainerCreate : Ctx -> Config -> HostConfig -> string -> H ->
                    (ContainerCreateCreatedBody * option error) * H;
  ContainerStart : Ctx -> string -> H -> option error * H;
  IsErrNotFound : error -> bool;
  GetFreePort : H -> (Z * option error) * H;
  labels : string -> Graph -> Z -> Z -> Z -> gmap string string;
  SSHPortInContainer : Z;
  JupyterPortInContainer : Z;
  RStudioServerPortInContainer : Z;
  DurationString : Z -> string
}.

Arguments ContainerKill {H}. Arguments ContainerRemove {H}.
Arguments ContainerPause {H}. Arguments ContainerUnpause {H}.
Arguments ContainerInspect {H}. Arguments ContainerCreate {H}.
Arguments ContainerStart {H}. Arguments IsErrNotFound {H}.
Arguments GetFreePort {H}. Arguments labels {H}.
Arguments SSHPortInContainer {H}. Arguments JupyterPortInContainer {H}.
Arguments RStudioServerPortInContainer {H}. Arguments DurationString {H}.

(** The state a call runs in: the outside world, the clock, the choices
    the Go scheduler makes when a [select] finds two channels ready, and
    the requests sent so far, each with the instant it was sent at. *)
Record World (H : Type) : Type := {
  host : H;
  now : Z;
  sched : nat -> bool;
  calls : list (Z * Call)
}.

Arguments host {H}. Arguments now {H}. Arguments sched {H}. Arguments calls {H}.

(** How a call ends: it returns, it panics, or the model's loop bound is
    exhausted (which [WaitUntilRunning] never is, as shown below). *)
Inductive outcome (A : Type) : Type :=
| Returns (a : A)
| Panics (msg : string)
| OutOfFuel.

Arguments Returns {A}. Arguments Panics {A}. Arguments OutOfFuel {A}.

(** The world once the request [c] has been sent and has left the
    outside world in state [h]. *)
Definition logged {H} (w : World H) (c : Call) (h : H) : World H :=
  {| host := h; now := now w; sched := sched w;
     calls := calls w ++ [(now w, c)] |}.

(** The world at the later instant [t], the caller having slept. *)
Definition wakeAt {H} (w : World H) (t : Z) : World H :=
  {| host := host w; now := t; sched := sched w; calls := calls w |}.

(** The world once the scheduler has made its next choice. *)
Definition nextChoice {H} (w : World H) : World H :=
  {| host := host w; now := now w; sched := fun n => sched w (S n); calls := calls w |}.

Definition nilDereference : string :=
  "runtime error: invalid memory address or nil pointer dereference".

Section Monad.
Context {H : Type}.

Definition M (A : Type) : Type := World H -> outcome A * World H.

Definition ret {A} (a : A) : M A := fun w => (Returns a, w).

Definition bind {A B} (m : M A) (k : A -> M B) : M B := fun w =>
  match m w with
  | (Returns a, w') => k a w'
  | (Panics msg, w') => (Panics msg, w')
  | (OutOfFuel, w') => (OutOfFuel, w')
  end.

Definition panic {A} (msg : string) : M A := fun w => (Panics msg, w).

(** Reading through a pointer. *)
Definition deref {A} (p : option A) : M A :=
  match p with
  | Some a => ret a
  | None => panic nilDereference
  end.

(** A request to the outside world: it is logged with the instant it
    is sent at and takes no time on the model's clock. *)
Definition call {A} (c : Call) (op : H -> A * H) : M A := fun w =>
  let (a, h) := op (host w) in (Returns a, logged w c h).

End Monad.

Arguments M : clear implicits.

Notation "x <- m ;; k" := (bind m (fun x => k))
  (at level 100, m at next level, right associativity).

(** ** The client *)

Section generalClient.
Context {H : Type} (c : Client H).

Local Abbreviation IO := (M H).

(** Calls of [logrus] write to the debug log only and are left out. *)

Definition GetContainer (ctx : Ctx) (cname : string) : IO (ContainerJSON * option error) :=
  call (CallInspect ctx cname) (ContainerInspect c ctx cname).

Definition PauseContainer (ctx : Ctx) (name : string) : IO (string * option error) :=
  err <- call (CallPause ctx name) (ContainerPause c ctx name) ;;
  match err with
  | Some err =>
      let errCause := Error (errors.UnwrapAll err) in
      if strings.Contains errCause "is already paused" then
        ret ("", None)
      else if strings.Contains errCause "No such container" then
        ret ("", Some (errors.New "container not found"))
      else
        ret ("", Some (errors.Wrap err "failed to pause container"))
  | None => ret (name, None)
  end.

Definition ResumeContainer (ctx : Ctx) (name : string) : IO (string * option error) :=
  err <- call (CallUnpause ctx name) (ContainerUnpause c ctx name) ;;
  match err with
  | Some err =>
      let errCause := Error (errors.UnwrapAll err) in
      if strings.Contains errCause "is not paused" then
        ret ("", None)
      else if strings.Contains errCause "No such container" then
        ret ("", Some (errors.New "container not found"))
      else
        ret ("", Some (errors.Wrap err "failed to resume container"))
  | None => ret (name, None)
  end.

(** The second half of [Destroy], reached when the kill succeeded or
    the container was not running. *)
Definition Destroy_remove (ctx : Ctx) (name : string) : IO (string * option error) :=
  err <- call (CallRemove ctx name) (ContainerRemove c ctx name) ;;
  match err with
  | Some err => ret ("", Some (errors.Wrap err "failed to remove the container"))
  | None => ret (name, None)
  end.

Definition Destroy (ctx : Ctx) (name : string) : IO (string * option error) :=
  err <- call (CallKill ctx name "KILL") (ContainerKill c ctx name "KILL") ;;
  match err with
  | Some err =>
      let errCause := Error (errors.UnwrapAll err) in
      if strings.Contains errCause "is not running" then
        Destroy_remove ctx name
      else if strings.Contains errCause "No such container" then
        ret ("", None)
      else
        ret ("", Some (errors.Wrap err "failed to kill the container"))
  | None => Destroy_remove ctx name
  end.

Definition IsRunning (ctx : Ctx) (cname : string) : IO (bool * option error) :=
  r <- GetContainer ctx cname ;;
  let (container, err) := r in
  match err with
  | Some err =>
      if IsErrNotFound c err then ret (false, None)
      else ret (false, Some err)
  | None =>
      base <- deref (Base container) ;;
      state <- deref (State base) ;;
      ret (Running state, None)
  end.

(** ** WaitUntilRunning *)

(** The two channels the loop selects on. *)
Inductive fired : Type := timeAfter | ctxDone.

(** [select] on [time.After(interval)] and [ctxTimeout.Done()], entered
    at instant [now]: the caller sleeps until the earlier of the two
    instants; a context that is done already wins at once; when both
    fall on the same instant the scheduler picks one. *)
Definition select (ctxTimeout : Ctx) : IO fired := fun w =>
  let t := now w in
  match deadline ctxTimeout with
  | None => (Returns timeAfter, wakeAt w (t + interval))
  | Some d =>
      if d <=? t then (Returns ctxDone, w)
      else if t + interval <? d then (Returns timeAfter, wakeAt w (t + interval))
      else if d <? t + interval then (Returns ctxDone, wakeAt w d)
      else (Returns (if sched w 0%nat then timeAfter else ctxDone),
            nextChoice (wakeAt w d))
  end.

(** [errors.Errorf("timeout %s: container did not start", timeout)]. *)
Definition errTimeout (timeout : Z) : error :=
  errNew ("timeout " +:+ DurationString c timeout +:+ ": container did not start").

(** The [for] loop of [WaitUntilRunning], at most [fuel] iterations. *)
Fixpoint WaitUntilRunning_loop (fuel : nat) (ctx ctxTimeout : Ctx)
    (name : string) (timeout : Z) : IO (option error) :=
  match fuel with
  | O => fun w => (OutOfFuel, w)
  | S fuel' =>
      f <- select ctxTimeout ;;
      match f with
      | timeAfter =>
          r <- IsRunning ctxTimeout name ;;
          let (isRunning, err) := r in
          match err with
          | Some err =>
              ret (Some (errors.Wrap err "failed to check if container is running"))
          | None =>
              if isRunning then ret None
              else WaitUntilRunning_loop fuel' ctx ctxTimeout name timeout
          end
      | ctxDone =>
          r <- GetContainer ctx name ;;
          let (container, _) := r in
          (* json.Marshal(container.State): the field is read through
             the embedded pointer; what Marshal returns is only logged *)
          base <- deref (Base container) ;;
          let _ := State base in
          ret (Some (errTimeout timeout))
      end
  end.

(** The number of timer ticks that fit before the deadline. *)
Definition ticksBefore (ctxTimeout : Ctx) (t : Z) : nat :=
  match deadline ctxTimeout with
  | Some d => Z.to_nat ((d - t) / interval)
  | None => 0
  end.

Definition WaitUntilRunning (ctx : Ctx) (name : string) (timeout : Z) : IO (option error) :=
  fun w =>
    let ctxTimeout := WithTimeout ctx timeout (now w) in
    WaitUntilRunning_loop (ticksBefore ctxTimeout (now w) + 2)
                          ctx ctxTimeout name timeout w.

(** ** StartEnvd *)

Definition deviceRequests (count : Z) : list DeviceRequest :=
  [ {| Driver := "nvidia";
       Capabilities := [ ["gpu"]; ["nvidia"]; ["compute"]; ["compat32"];
                         ["graphics"]; ["utility"]; ["video"]; ["display"] ];
       Count := count |} ].

(** [strconv.Itoa]. *)
Definition Itoa (i : Z) : string := pretty i.

(** [nat.Port(fmt.Sprintf("%d/tcp", port))]. *)
Definition natPort (port : Z) : string := pretty port +:+ "/tcp".

(** The loop over [mountOptionsStr], [i] being the index of the head of
    the entries left: entry [i] of the slice [mountOption] is
    assigned, or the function returns at the first entry that does not
    split into two fields. *)
Fixpoint mountLoop (i : nat) (mountOptionsStr : list string)
    (mountOption : list Mount) : error + list Mount :=
  match mountOptionsStr with
  | [] => inr mountOption
  | opt :: rest =>
      let mStr := strings.Split opt ":"%char in
      if negb (Nat.eqb (length mStr) 2) then
        inl (errNew ("Invalid mount options " +:+ opt))
      else
        mountLoop (S i) rest
          (<[i := {| Type_ := TypeBind;
                     Source := nth 0 mStr "";
                     Target := nth 1 mStr "" |}]> mountOption)
  end.

(** The block that [StartEnvd] runs once for Jupyter and once for
    RStudio: when the service is declared ([cfg] is not nil) a free
    host port is asked for, bound to the service's container port on
    the loopback address, and the container port is exposed.  The
    result holds the host port (0 when the service is absent). *)
Definition servicePort {A} (cfg : option A) (portInContainer : Z)
    (portBindings : gmap string (list PortBinding)) (exposedPorts : gset string)
    : IO (error + (Z * gmap string (list PortBinding) * gset string)) :=
  match cfg with
  | Some _ =>
      r <- call CallGetFreePort (GetFreePort c) ;;
      let (portInHost, err) := r in
      match err with
      | Some err => ret (inl (errors.Wrap err "failed to get a free port"))
      | None =>
          ret (inr (portInHost,
                    <[natPort portInContainer :=
                        [ {| HostIP := localhost; HostPort := Itoa portInHost |} ]]>
                      portBindings,
                    {[ natPort portInContainer ]} ∪ exposedPorts))
      end
  | None => ret (inr (0, portBindings, exposedPorts))
  end.

(** The first part of [StartEnvd], up to the call of
    [ContainerCreate]: the container specification, or the error the
    function returns with. *)
Definition buildSpec (tag name buildContext : string) (gpuEnabled : bool)
    (numGPUs sshPortInHost : Z) (g : Graph) (mountOptionsStr : list string)
    : IO (error + (Config * HostConfig)) :=
  let base := filepath.Join ["/home/envd"; fileutil.Base buildContext] in
  match mountLoop 0 mountOptionsStr
          (replicate (length mountOptionsStr + 1) zeroMount) with
  | inl err => ret (inl err)
  | inr mountOption =>
      let mountOption :=
        <[length mountOptionsStr :=
            {| Type_ := TypeBind; Source := buildContext; Target := base |}]>
          mountOption in
      let portBindings : gmap string (list PortBinding) :=
        <[natPort (SSHPortInContainer c) :=
            [ {| HostIP := localhost; HostPort := Itoa sshPortInHost |} ]]> ∅ in
      j <- servicePort (JupyterConfig g) (JupyterPortInContainer c) portBindings ∅ ;;
      match j with
      | inl err => ret (inl err)
      | inr (jupyterPortInHost, portBindings, exposedPorts) =>
          r <- servicePort (RStudioServerConfig g) (RStudioServerPortInContainer c)
                           portBindings exposedPorts ;;
          match r with
          | inl err => ret (inl err)
          | inr (rStudioPortInHost, portBindings, exposedPorts) =>
              ret (inr ({| Image := tag;
                           User := "envd";
                           ExposedPorts := exposedPorts;
                           WorkingDir := base;
                           Entrypoint := [];
                           Labels := labels c name g sshPortInHost
                                            jupyterPortInHost rStudioPortInHost |},
                        {| PortBindings := portBindings;
                           Mounts := mountOption;
                           DeviceRequests :=
                             if gpuEnabled then deviceRequests numGPUs else [] |}))
          end
      end
  end.

Definition StartEnvd (ctx : Ctx) (tag name buildContext : string)
    (gpuEnabled : bool) (numGPUs sshPortInHost : Z) (g : Graph) (timeout : Z)
    (mountOptionsStr : list string) : IO (string * string * option error) :=
  spec <- buildSpec tag name buildContext gpuEnabled numGPUs sshPortInHost g
                    mountOptionsStr ;;
  match spec with
  | inl err => ret ("", "", Some err)
  | inr (config, hostConfig) =>
      r <- call (CallCreate ctx config hostConfig name)
                (ContainerCreate c ctx config hostConfig name) ;;
      let (resp, err) := r in
      match err with
      | Some err => ret ("", "", Some (errors.Wrap err "failed to create the container"))
      | None =>
          err <- call (CallStart ctx (ID resp)) (ContainerStart c ctx (ID resp)) ;;
          match err with
          | Some err =>
              let errCause := errors.UnwrapAll err in
              if strings.Contains (Error errCause) "port is already allocated" then
                ret ("", "", Some (errors.New "jupyter port is already allocated in the host"))
              else
                ret ("", "", Some (errors.Wrap err "failed to run the container"))
          | None =>
              r <- GetContainer ctx (ID resp) ;;
              let (container, err) := r in
              match err with
              | Some err =>
                  ret ("", "", Some (errors.Wrap err "failed to inspect the container"))
              | None =>
                  base <- deref (Base container) ;;
                  err <- WaitUntilRunning ctx (Name base) timeout ;;
                  match err with
                  | Some err =>
                      ret ("", "", Some (errors.Wrap err
                             "failed to wait until the container is running"))
                  | None =>
                      net <- deref (Network container) ;;
                      ret (Name base, IPAddress net, None)
                  end
              end
          end
      end
  end.

End generalClient.

(** ** Vocabulary of the statements *)

Section Observations.
Context {H : Type} (c : Client H).

(** What [Destroy] returns once the removal has answered [r]. *)
Definition removed (name : string) (r : option error) : string * option error :=
  match r with
  | Some e => ("", Some (errors.Wrap e "failed to remove the container"))
  | None => (name, None)
  end.

(** The state of the outside world after [k] inspections of [name]. *)
Fixpoint hostAfter (ctx : Ctx) (name : string) (k : nat) (h : H) : H :=
  match k with
  | O => h
  | S k' => hostAfter ctx name k' (snd (ContainerInspect c ctx name h))
  end.

(** A world with nothing in it but the outside world [h]. *)
Definition worldOf (h : H) : World H :=
  {| host := h; now := 0; sched := fun _ => false; calls := [] |}.

(** What poll number [k] (from 0) of a wait started in [h] observes:
    the outcome of [IsRunning] after [k] earlier polls. *)
Definition poll (ctx : Ctx) (name : string) (k : nat) (h : H)
    : outcome (bool * option error) :=
  fst (IsRunning c ctx name (worldOf (hostAfter ctx name k h))).

(** The requests of [n] polls, one per interval from [t + interval]. *)
Fixpoint pollCalls (ctx : Ctx) (name : string) (t : Z) (n : nat) : list (Z * Call) :=
  match n with
  | O => []
  | S n' => (t + interval, CallInspect ctx name)
            :: pollCalls ctx name (t + interval) n'
  end.

(** The instant a context with a deadline is done at. *)
Definition doneAt (ctx : Ctx) : Z := default 0 (deadline ctx).

(** The number of polls a wait entered at [t] makes when no poll ends
    it: one per tick strictly before the deadline [d], and one more
    when a tick falls on the deadline itself and the scheduler picks
    the timer ([pick]). *)
Definition pollsDue (t d : Z) (pick : bool) : nat :=
  if (d <=? t)%Z then 0%nat
  else (Z.to_nat ((d - t - 1) / interval)
        + (if ((d - t) mod interval =? 0)%Z && pick then 1 else 0))%nat.

(** The world after a tick of the timer and the poll that follows it:
    the tick that falls on the deadline [d] has used one choice of the
    scheduler. *)
Definition afterPoll (ctx : Ctx) (name : string) (d : Z) (w : World H) : World H :=
  let w1 := wakeAt w (now w + interval) in
  logged (if now w + interval =? d then nextChoice w1 else w1)
         (CallInspect ctx name)
         (snd (ContainerInspect c ctx name (host w))).

(** The world a wait entered in [w] is in after [n] polls. *)
Fixpoint afterPolls (ctx : Ctx) (name : string) (d : Z) (n : nat) (w : World H)
    : World H :=
  match n with
  | O => w
  | S n' => afterPolls ctx name d n' (afterPoll ctx name d w)
  end.

(** Tick [n] of a wait that is in [w] fires: it falls before the
    deadline [d], or on it with the scheduler picking the timer. *)
Definition fires (d : Z) (n : nat) (w : World H) : Prop :=
  now w + Z.of_nat n * interval < d \/
  (now w + Z.of_nat n * interval = d /\ sched w 0%nat = true).

(** The context is done, at [d], before the next tick of a wait that
    is in [w], or with it and the scheduler picks the context. *)
Definition expires (d : Z) (w : World H) : Prop :=
  d <= now w \/ d < now w + interval \/
  (now w + interval = d /\ sched w 0%nat = false).

(** The answer to the inspection made once the deadline has passed,
    after [n] polls. *)
Definition diagnostic (ctx ctxTimeout : Ctx) (name : string) (n : nat) (h : H)
    : (ContainerJSON * option error) * H :=
  ContainerInspect c ctx name (hostAfter ctxTimeout name n h).

(** The container [name] is not on the host [h]: an inspection fails
    the way the Docker client fails, with the zero [ContainerJSON] and
    an error, and the error is a not-found error. *)
Definition absent (name : string) (h : H) : Prop :=
  forall ctx, exists err,
    fst (ContainerInspect c ctx name h) = (zeroContainerJSON, Some err) /\
    IsErrNotFound c err = true.

End Observations.

(** ** Vocabulary of the statements on mount options *)

(** The number of bytes of [s] equal to [b]. *)
Fixpoint countByte (s : string) (b : ascii) : nat :=
  match s with
  | EmptyString => 0
  | String x s' => ((if Ascii.eqb x b then 1 else 0) + countByte s' b)%nat
  end.

(** The test [StartEnvd] makes on a mount option. *)
Definition splitsInTwo (opt : string) : bool :=
  Nat.eqb (length (strings.Split opt ":"%char)) 2.

(** The bind mount [StartEnvd] makes of a mount option. *)
Definition bindMount (opt : string) : Mount :=
  {| Type_ := TypeBind;
     Source := nth 0 (strings.Split opt ":"%char) "";
     Target := nth 1 (strings.Split opt ":"%char) "" |}.

(** The mount of the build context on the working directory. *)
Definition contextMount (buildContext : string) : Mount :=
  {| Type_ := TypeBind;
     Source := buildContext;
     Target := filepath.Join ["/home/envd"; fileutil.Base buildContext] |}.

(** The words of the spec on mount options: the entry cut at its first
    colon. *)
Fixpoint cutFirstColon (s : string) : option (string * string) :=
  match s with
  | EmptyString => None
  | String x s' =>
      if Ascii.eqb x ":"%char then Some (EmptyString, s')
      else match cutFirstColon s' with
           | Some (h, t) => Some (String x h, t)
           | None => None
           end
  end.

(** The words of the spec on mount options: an entry is well formed when
    it splits on the first colon into two non-empty segments. *)
Definition specValidMountOption (s : string) : bool :=
  match cutFirstColon s with
  | Some (h, t) => negb (String.eqb h "") && negb (String.eqb t "")
  | None => false
  end.

Definition noServices : Graph :=
  {| JupyterConfig := None; RStudioServerConfig := None |}.

Definition bothServices : Graph :=
  {| JupyterConfig := Some mkJupyterConfig;
     RStudioServerConfig := Some mkRStudioServerConfig |}.

(** The binding of a container port to a host port on the loopback
    address. *)
Definition loopback (hostPort : Z) : list PortBinding :=
  [ {| HostIP := localhost; HostPort := Itoa hostPort |} ].

(** ** An in-memory host, for concrete runs *)

(** Every kind of request has a scripted answer; the answers to
    inspections and the free ports are consumed in order, the last
    inspection answer being repeated. *)
Record FakeHost : Type := {
  killErr : option error;
  removeErr : option error;
  pauseErr : option error;
  unpauseErr : option error;
  createErr : option error;
  startErr : option error;
  inspections : list (ContainerJSON * option error);
  freePorts : list Z
}.

Definition fakeInspect (h : FakeHost) : (ContainerJSON * option error) * FakeHost :=
  match inspections h with
  | [] => ((zeroContainerJSON, Some (errNew "Error: No such container")), h)
  | [r] => (r, h)
  | r :: rest =>
      (r, {| killErr := killErr h; removeErr := removeErr h; pauseErr := pauseErr h;
             unpauseErr := unpauseErr h; createErr := createErr h;
             startErr := startErr h; inspections := rest; freePorts := freePorts h |})
  end.

Definition fakeGetFreePort (h : FakeHost) : (Z * option error) * FakeHost :=
  match freePorts h with
  | [] => ((0, Some (errNew "listen tcp :0: no free port")), h)
  | p :: ps =>
      ((p, None),
       {| killErr := killErr h; removeErr := removeErr h; pauseErr := pauseErr h;
          unpauseErr := unpauseErr h; createErr := createErr h;
          startErr := startErr h; inspections := inspections h; freePorts := ps |})
  end.

Definition fakeClient : Client FakeHost :=
  {| ContainerKill := fun _ _ _ h => (killErr h, h);
     ContainerRemove := fun _ _ h => (removeErr h, h);
     ContainerPause := fun _ _ h => (pauseErr h, h);
     ContainerUnpause := fun _ _ h => (unpauseErr h, h);
     ContainerInspect := fun _ _ h => fakeInspect h;
     ContainerCreate := fun _ _ _ name h =>
       (({| ID := name; Warnings := [] |}, createErr h), h);
     ContainerStart := fun _ _ h => (startErr h, h);
     IsErrNotFound := fun e => strings.Contains (Error e) "No such container";
     GetFreePort := fakeGetFreePort;
     labels := fun _ _ _ _ _ => ∅;
     SSHPortInContainer := 2222;
     JupyterPortInContainer := 8888;
     RStudioServerPortInContainer := 8787;
     DurationString := fun d => pretty d +:+ "ns" |}.

Definition quietHost : FakeHost :=
  {| killErr := None; removeErr := None; pauseErr := None; unpauseErr := None;
     createErr := None; startErr := None; inspections := []; freePorts := [] |}.

Definition fakeWorld (h : FakeHost) : World FakeHost :=
  {| host := h; now := 0; sched := fun _ => false; calls := [] |}.

(** A host on which the container does not exist. *)
Definition absentHost : FakeHost :=
  {| killErr := Some (errNew "Error response from daemon: Cannot kill container: c1: No such container: c1");
     removeErr := Some (errNew "Error response from daemon: No such container: c1");
     pauseErr := Some (errNew "Error response from daemon: No such container: c1");
     unpauseErr := Some (errNew "Error response from daemon: No such container: c1");
     createErr := None; startErr := None; inspections := []; freePorts := [] |}.

(** A host on which the container exists and is stopped. *)
Definition stoppedHost : FakeHost :=
  {| killErr := Some (errNew "Error response from daemon: Cannot kill container: c1: Container 4f2a is not running");
     removeErr := None;
     pauseErr := Some (errNew "Error response from daemon: Container 4f2a is not running");
     unpauseErr := Some (errNew "Error response from daemon: Container 4f2a is not paused");
     createErr := None; startErr := None; inspections := []; freePorts := [] |}.

(** A host on which the container is paused. *)
Definition pausedHost : FakeHost :=
  {| killErr := None; removeErr := None;
     pauseErr := Some (errNew "Error response from daemon: Container 4f2a is already paused");
     unpauseErr := None;
     createErr := None; startErr := None; inspections := []; freePorts := [] |}.

(** What an inspection of the container c1 answers when it exists. *)
Definition inspected (running : bool) : ContainerJSON * option error :=
  ({| Base := Some {| Name := "/c1"; State := Some {| Running := running |} |};
      Network := Some {| IPAddress := "172.17.0.2" |} |}, None).

(** A host on which the container is seen running at the third
    inspection. *)
Definition startingHost : FakeHost :=
  {| killErr := None; removeErr := None; pauseErr := None; unpauseErr := None;
     createErr := None; startErr := None;
     inspections := [inspected false; inspected false; inspected true];
     freePorts := [] |}.

(** A host on which the container never runs. *)
Definition stuckHost : FakeHost :=
  {| killErr := None; removeErr := None; pauseErr := None; unpauseErr := None;
     createErr := None; startErr := None;
     inspections := [inspected false];
     freePorts := [] |}.

(** A host that loses the connection at the second inspection. *)
Definition flakyHost : FakeHost :=
  {| killErr := None; removeErr := None; pauseErr := None; unpauseErr := None;
     createErr := None; startErr := None;
     inspections := [inspected false;
                     (zeroContainerJSON, Some (errNew "Cannot connect to the Docker daemon"))];
     freePorts := [] |}.

(** A host that answers two inspections and fails the third the way
    the Docker client fails: with the zero value and an error. *)
Definition goneHost : FakeHost :=
  {| killErr := None; removeErr := None; pauseErr := None; unpauseErr := None;
     createErr := None; startErr := None;
     inspections := [inspected false; inspected false;
                     (zeroContainerJSON,
                      Some (errNew "Error response from daemon: No such container: c1"))];
     freePorts := [] |}.

(** A host whose port allocator hands out the same port twice. *)
Definition dupHost : FakeHost :=
  {| killErr := None; removeErr := None; pauseErr := None; unpauseErr := None;
     createErr := None; startErr := None;
     inspections := [inspected false; inspected true];
     freePorts := [34567; 34567] |}.

(** A host whose port allocator hands out two different ports. *)
Definition twoPortsHost : FakeHost :=
  {| killErr := None; removeErr := None; pauseErr := None; unpauseErr := None;
     createErr := None; startErr := None;
     inspections := [inspected false; inspected true];
     freePorts := [34567; 34568] |}.

(** A host on which a created container is running at the first poll. *)
Definition readyHost : FakeHost :=
  {| killErr := None; removeErr := None; pauseErr := None; unpauseErr := None;
     createErr := None; startErr := None;
     inspections := [inspected false; inspected true];
     freePorts := [] |}.


(** The eight capabilities asked of the GPU driver. *)
Definition gpuCapabilities : list (list string) :=
  [ ["gpu"]; ["nvidia"]; ["compute"]; ["compat32"];
    ["graphics"]; ["utility"]; ["video"]; ["display"] ].

(** A host that refuses every request. *)
Definition brokenHost : FakeHost :=
  {| killErr := Some (errNew "Cannot connect to the Docker daemon");
     removeErr := Some (errNew "Cannot connect to the Docker daemon");
     pauseErr := Some (errNew "Cannot connect to the Docker daemon");
     unpauseErr := Some (errNew "Cannot connect to the Docker daemon");
     createErr := None; startErr := None; inspections := []; freePorts := [] |}.

(** ** The Docker daemon beyond the containers of StartEnvd *)

Module types.

(** [types.Runtime] and [types.Info], the fields [GPUEnabled] reads. *)
Record Runtime : Type := { Path : string; Args : list string }.

Record Info : Type := { Runtimes : gmap string Runtime }.

End types.

Definition zeroRuntime : types.Runtime := {| types.Path := ""; types.Args := [] |}.

(** The one field of [container.HostConfig] that [StartBuildkitd] sets;
    [HostConfig] above holds those that [StartEnvd] sets. *)
Record BuildkitHostConfig : Type := { Privileged : bool }.

(** The requests of [GPUEnabled] and [StartBuildkitd] that are not among
    those of [Call]. *)
Inductive DaemonCall : Type :=
| CallInfo (ctx : Ctx)
| CallImageInspect (ctx : Ctx) (image : string)
| CallImagePull (ctx : Ctx) (ref : string)
| CallCreateBuildkit (ctx : Ctx) (config : Config) (hostConfig : BuildkitHostConfig)
                     (name : string).

(** The methods of the embedded [*client.Client] behind these requests. *)
Record Daemon (H : Type) : Type := {
  Info : Ctx -> H -> (types.Info * option error) * H;
  ImageInspectWithRaw : Ctx -> string -> H -> option error * H;
  ImagePull : Ctx -> string -> H -> option error * H;
  ContainerCreateBuildkit : Ctx -> Config -> BuildkitHostConfig -> string -> H ->
                            (ContainerCreateCreatedBody * option error) * H
}.

Arguments Info {H}. Arguments ImageInspectWithRaw {H}.
Arguments ImagePull {H}. Arguments ContainerCreateBuildkit {H}.

(** The client over an outside world that also keeps the list of the
    requests above: the methods of [Client] leave the list alone. *)
Definition onDocker {H} (c : Client H) : Client (H * list DaemonCall) :=
  let keep {A} (op : H -> A * H) (hl : H * list DaemonCall) : A * (H * list DaemonCall) :=
    let (a, h) := op (fst hl) in (a, (h, snd hl)) in
  {| ContainerKill := fun ctx name signal => keep (ContainerKill c ctx name signal);
     ContainerRemove := fun ctx name => keep (ContainerRemove c ctx name);
     ContainerPause := fun ctx name => keep (ContainerPause c ctx name);
     ContainerUnpause := fun ctx name => keep (ContainerUnpause c ctx name);
     ContainerInspect := fun ctx name => keep (ContainerInspect c ctx name);
     ContainerCreate := fun ctx config hostConfig name =>
       keep (ContainerCreate c ctx config hostConfig name);
     ContainerStart := fun ctx id => keep (ContainerStart c ctx id);
     IsErrNotFound := IsErrNotFound c;
     GetFreePort := keep (GetFreePort c);
     labels := labels c;
     SSHPortInContainer := SSHPortInContainer c;
     JupyterPortInContainer := JupyterPortInContainer c;
     RStudioServerPortInContainer := RStudioServerPortInContainer c;
     DurationString := DurationString c |}.

(** The bytes that a string literal of this file does not hold. *)
Definition dquote : string := String (Ascii.ascii_of_nat 34) EmptyString.
Definition newline : string := String (Ascii.ascii_of_nat 10) EmptyString.
Definition tab : string := String (Ascii.ascii_of_nat 9) EmptyString.

Section Docker.
Context {H : Type} (c : Client H) (dm : Daemon H).

Local Abbreviation IO := (M (H * list DaemonCall)).

(** A request to the daemon, added to the list the outside world
    keeps. *)
Definition request {A} (r : DaemonCall) (op : H -> A * H) : IO A := fun w =>
  let (a, h) := op (fst (host w)) in
  (Returns a, {| host := (h, snd (host w) ++ [r]); now := now w;
                 sched := sched w; calls := calls w |}).

Definition GetInfo (ctx : Ctx) : IO (types.Info * option error) :=
  request (CallInfo ctx) (Info dm ctx).

Definition GPUEnabled (ctx : Ctx) : IO (bool * option error) :=
  r <- GetInfo ctx ;;
  let (info, err) := r in
  match err with
  | Some err => ret (false, Some (errors.Wrap err "failed to get docker info"))
  | None =>
      let nv := default zeroRuntime (types.Runtimes info !! "nvidia") in
      ret (negb (String.eqb (types.Path nv) ""), None)
  end.

(** The configuration file [StartBuildkitd] writes for a mirror. *)
Definition buildkitdToml (mirror : string) : string :=
  newline +:+ "[registry." +:+ dquote +:+ "docker.io" +:+ dquote +:+ "]" +:+ newline
  +:+ tab +:+ "mirrors = [" +:+ dquote +:+ mirror +:+ dquote +:+ "]".

(** The configuration of the buildkitd container. *)
Definition buildkitdConfig (tag mirror : string) : Config :=
  {| Image := tag; User := ""; ExposedPorts := ∅; WorkingDir := "";
     Entrypoint :=
       if String.eqb mirror "" then []
       else [ "/bin/sh"; "-c";
              "mkdir /etc/buildkit && echo '" +:+ buildkitdToml mirror
              +:+ "' > /etc/buildkit/buildkitd.toml && buildkitd" ];
     Labels := ∅ |}.

(** The second half of [StartBuildkitd], reached when the image is on
    the host. *)
Definition StartBuildkitd_run (ctx : Ctx) (tag name mirror : string)
    : IO (string * option error) :=
  let config := buildkitdConfig tag mirror in
  let hostConfig := {| Privileged := true |} in
  r <- request (CallCreateBuildkit ctx config hostConfig name)
               (ContainerCreateBuildkit dm ctx config hostConfig name) ;;
  let (resp, err) := r in
  match err with
  | Some err => ret ("", Some (errors.Wrap err "failed to create container"))
  | None =>
      err <- call (CallStart ctx (ID resp)) (ContainerStart (onDocker c) ctx (ID resp)) ;;
      match err with
      | Some err => ret ("", Some (errors.Wrap err "failed to start container"))
      | None =>
          r <- GetContainer (onDocker c) ctx (ID resp) ;;
          let (container, err) := r in
          match err with
          | Some err => ret ("", Some (errors.Wrap err "failed to inspect container"))
          | None =>
              base <- deref (Base container) ;;
              ret (Name base, None)
          end
      end
  end.

(** The progress of the pull is displayed and the body closed; neither
    changes what the function returns. *)
Definition StartBuildkitd (ctx : Ctx) (tag name mirror : string)
    : IO (string * option error) :=
  err <- request (CallImageInspect ctx tag) (ImageInspectWithRaw dm ctx tag) ;;
  match err with
  | Some err =>
      if negb (IsErrNotFound c err) then
        ret ("", Some (errors.Wrap err "failed to inspect image"))
      else
        err <- request (CallImagePull ctx tag) (ImagePull dm ctx tag) ;;
        match err with
        | Some err => ret ("", Some (errors.Wrap err "failed to pull image"))
        | None => StartBuildkitd_run ctx tag name mirror
        end
  | None => StartBuildkitd_run ctx tag name mirror
  end.

End Docker.

(** An in-memory daemon with fixed answers. *)
Definition fakeDaemon (info : types.Info * option error)
    (imageErr pullErr : option error) : Daemon FakeHost :=
  {| Info := fun _ h => (info, h);
     ImageInspectWithRaw := fun _ _ h => (imageErr, h);
     ImagePull := fun _ _ h => (pullErr, h);
     ContainerCreateBuildkit := fun _ _ _ name h =>
       (({| ID := name; Warnings := [] |}, createErr h), h) |}.

Definition dockerWorld (h : FakeHost) : World (FakeHost * list DaemonCall) :=
  {| host := (h, []); now := 0; sched := fun _ => false; calls := [] |}.

(** The runtimes of a host with the NVIDIA container runtime. *)
Definition nvidiaInfo : types.Info :=
  {| types.Runtimes :=
       <["nvidia" := {| types.Path := "/usr/bin/nvidia-container-runtime"; types.Args := [] |}]>
       (<["runc" := {| types.Path := "runc"; types.Args := [] |}]> ∅) |}.

Definition runcInfo : types.Info :=
  {| types.Runtimes := <["runc" := {| types.Path := "runc"; types.Args := [] |}]> ∅ |}.

(** ** The command line: handleErr *)

Section Main.
(** The two kinds of root cause [handleErr] tells apart: what
    [Backtrace] gives for a [*starlark.EvalError] and how a
    [*syntax.Error] prints, when the error is one. *)
Variables (asEvalError asSyntaxError : error -> option string).

(** [handleErr], with the flag [debug] of viper: the lines written to
    the standard error, and the status the process exits with, if it
    exits. *)
Definition handleErr (debug : bool) (err : option error) : list string * option Z :=
  match err with
  | None => ([], None)
  | Some err =>
      let first :=
        if debug then [ "error: " +:+ Error err +:+ newline ] else [] in
      let rootCause := errors.UnwrapAll err in
      let second :=
        match asEvalError rootCause with
        | Some backtrace => backtrace +:+ newline
        | None =>
            match asSyntaxError rootCause with
            | Some printed => printed +:+ newline
            | None => "error: " +:+ Error rootCause +:+ newline
            end
        end in
      (first ++ [second], Some 1)
  end.

End Main.

(** ** The functions of the client that the statements above leave out *)

Section Queries.
Context {H : Type} (c : Client H).

Definition Exists (ctx : Ctx) (cname : string) : M H (bool * option error) :=
  r <- GetContainer c ctx cname ;;
  let (_, err) := r in
  match err with
  | Some err =>
      if IsErrNotFound c err then ret (false, None)
      else ret (false, Some err)
  | None => ret (true, None)
  end.

End Queries.

(** A call has returned the name it was given, with a nil error, or the
    empty string. *)
Definition nameOrNothing {H} (name : string)
    (r : outcome (string * option error) * World H) : Prop :=
  exists s err, fst r = Returns (s, err) /\ (s = "" \/ (s = name /\ err = None)).

(** The number of services a graph declares. *)
Definition declared (g : Graph) : nat :=
  (match JupyterConfig g with Some _ => 1 | None => 0 end
   + match RStudioServerConfig g with Some _ => 1 | None => 0 end)%nat.

(** The container ports of the services a graph declares, for a client
    [c]. *)
Definition servicePorts {H} (c : Client H) (g : Graph) : gset string :=
  match JupyterConfig g with
  | Some _ => {[ natPort (JupyterPortInContainer c) ]}
  | None => ∅
  end
  ∪ match RStudioServerConfig g with
    | Some _ => {[ natPort (RStudioServerPortInContainer c) ]}
    | None => ∅
    end.

(** A host whose port allocator fails. *)
Definition noPortHost : FakeHost :=
  {| killErr := None; removeErr := None; pauseErr := None; unpauseErr := None;
     createErr := None; startErr := None;
     inspections := [inspected false; inspected true];
     freePorts := [] |}.

(** A host that refuses to create containers. *)
Definition noCreateHost : FakeHost :=
  {| killErr := None; removeErr := None; pauseErr := None; unpauseErr := None;
     createErr := Some (errNew "Error response from daemon: Conflict. The container name c1 is already in use");
     startErr := None;
     inspections := [inspected false; inspected true];
     freePorts := [34567; 34568] |}.

(** The error a host answers creations with, when it refuses them. *)
Definition createErr_of (h : FakeHost) : error :=
  default (errNew "") (createErr h).

(** A host on which the container is running from the start. *)
Definition runningHost : FakeHost :=
  {| killErr := None; removeErr := None; pauseErr := None; unpauseErr := None;
     createErr := None; startErr := None;
     inspections := [inspected true];
     freePorts := [] |}.

(** ** Proof steps *)

(** Rewriting with the tests on the cause that the context decides. *)
Ltac decide_cause :=
  repeat match goal with
         | E : strings.Contains _ _ = _ |- _ => rewrite E; clear E
         end.

(** Running [buildSpec] on a concrete world [run] and going on with the
    specification it returns and the world it ends in. *)
Ltac with_spec run k :=
  let v := eval vm_compute in run in
  lazymatch v with
  | (Returns (inr (?config, ?hostConfig)), ?w') => k config hostConfig w'
  end.

(** Running a call on a concrete world and going on with what it
    returns and the world it ends in. *)
Ltac with_run run k :=
  let v := eval vm_compute in run in
  lazymatch v with
  | (Returns ?a, ?w') => k a w'
  end.

(** ** Destroy, PauseContainer, ResumeContainer *)

Section Lifecycle.
Context {H : Type} (c : Client H).

Lemma Destroy_remove_eq ctx name (w : World H) :
  Destroy_remove c ctx name w =
  (Returns (removed name (fst (ContainerRemove c ctx name (host w)))),
   logged w (CallRemove ctx name) (snd (ContainerRemove c ctx name (host w)))).
Proof.
  unfold Destroy_remove, bind, call, removed, ret.
  destruct (ContainerRemove c ctx name (host w)) as [[e|] h]; reflexivity.
Qed.

Lemma Destroy_eq ctx name (w : World H) :
  let k := ContainerKill c ctx name "KILL" (host w) in
  let w1 := logged w (CallKill ctx name "KILL") (snd k) in
  let r := ContainerRemove c ctx name (host w1) in
  let w2 := logged w1 (CallRemove ctx name) (snd r) in
  Destroy c ctx name w =
  match fst k with
  | Some err =>
      if strings.Contains (Error (errors.UnwrapAll err)) "is not running"
      then (Returns (removed name (fst r)), w2)
      else if strings.Contains (Error (errors.UnwrapAll err)) "No such container"
      then (Returns ("", None), w1)
      else (Returns ("", Some (errors.Wrap err "failed to kill the container")), w1)
  | None => (Returns (removed name (fst r)), w2)
  end.
Proof.
  intros k w1 r w2. unfold w2, r. rewrite <- Destroy_remove_eq.
  unfold Destroy, bind, call, w1, k.
  destruct (ContainerKill c ctx name "KILL" (host w)) as [[err|] h]; simpl; [|reflexivity].
  destruct (strings.Contains _ "is not running"); [reflexivity|].
  destruct (strings.Contains _ "No such container"); reflexivity.
Qed.

Lemma PauseContainer_eq ctx name (w : World H) :
  let p := ContainerPause c ctx name (host w) in
  PauseContainer c ctx name w =
  (Returns match fst p with
           | Some err =>
               if strings.Contains (Error (errors.UnwrapAll err)) "is already paused"
               then ("", None)
               else if strings.Contains (Error (errors.UnwrapAll err)) "No such container"
               then ("", Some (errors.New "container not found"))
               else ("", Some (errors.Wrap err "failed to pause container"))
           | None => (name, None)
           end,
   logged w (CallPause ctx name) (snd p)).
Proof.
  intros p. unfold PauseContainer, bind, call, p.
  destruct (ContainerPause c ctx name (host w)) as [[err|] h]; simpl; [|reflexivity].
  destruct (strings.Contains _ "is already paused"); [reflexivity|].
  destruct (strings.Contains _ "No such container"); reflexivity.
Qed.

Lemma ResumeContainer_eq ctx name (w : World H) :
  let u := ContainerUnpause c ctx name (host w) in
  ResumeContainer c ctx name w =
  (Returns match fst u with
           | Some err =>
               if strings.Contains (Error (errors.UnwrapAll err)) "is not paused"
               then ("", None)
               else if strings.Contains (Error (errors.UnwrapAll err)) "No such container"
               then ("", Some (errors.New "container not found"))
               else ("", Some (errors.Wrap err "failed to resume container"))
           | None => (name, None)
           end,
   logged w (CallUnpause ctx name) (snd u)).
Proof.
  intros u. unfold ResumeContainer, bind, call, u.
  destruct (ContainerUnpause c ctx name (host w)) as [[err|] h]; simpl; [|reflexivity].
  destruct (strings.Contains _ "is not paused"); [reflexivity|].
  destruct (strings.Contains _ "No such container"); reflexivity.
Qed.

(** C1. [Destroy] first sends Kill.  A Kill error whose cause says the
    container is not running does not stop it: Remove is sent.  A Kill
    error whose cause says there is no such container (and that the
    earlier case did not take) ends the call with success and Remove
    is not sent.  Any other Kill error is returned, wrapped, and Remove
    is not sent.  Whenever Remove is sent, its failure is returned,
    wrapped.  So on a host that answers Kill with "No such container"
    the call succeeds. *)
Theorem Destroy_classifies_kill_error ctx name (w : World H) :
  let k := ContainerKill c ctx name "KILL" (host w) in
  let w1 := logged w (CallKill ctx name "KILL") (snd k) in
  let r := ContainerRemove c ctx name (host w1) in
  let w2 := logged w1 (CallRemove ctx name) (snd r) in
  (forall err, fst k = Some err ->
     let errCause := Error (errors.UnwrapAll err) in
     (strings.Contains errCause "is not running" = true ->
        Destroy c ctx name w = (Returns (removed name (fst r)), w2)) /\
     (strings.Contains errCause "is not running" = false ->
      strings.Contains errCause "No such container" = true ->
        Destroy c ctx name w = (Returns ("", None), w1)) /\
     (strings.Contains errCause "is not running" = false ->
      strings.Contains errCause "No such container" = false ->
        Destroy c ctx name w =
        (Returns ("", Some (errors.Wrap err "failed to kill the container")), w1))) /\
  (fst k = None -> Destroy c ctx name w = (Returns (removed name (fst r)), w2)) /\
  (forall e, fst r = Some e ->
     removed name (fst r) = ("", Some (errors.Wrap e "failed to remove the container"))) /\
  calls w1 = calls w ++ [(now w, CallKill ctx name "KILL")] /\
  calls w2 = calls w ++ [(now w, CallKill ctx name "KILL"); (now w, CallRemove ctx name)].
Proof.
  intros k w1 r w2. pose proof (Destroy_eq ctx name w) as D. cbv zeta in D.
  fold k w1 r w2 in D.
  split; [|split; [|split; [|split]]].
  - intros err Hk errCause. rewrite D, Hk. subst errCause.
    split; [|split]; intros; decide_cause; reflexivity.
  - intros Hk. rewrite D, Hk. reflexivity.
  - intros e He. rewrite He. reflexivity.
  - reflexivity.
  - unfold w2, w1, logged. simpl. rewrite <- app_assoc. reflexivity.
Qed.

(** C3. [PauseContainer] on a container the host reports as already
    paused, and [ResumeContainer] on one it reports as not paused,
    return a nil error.  When the host reports no such container (and
    the earlier case did not take) both return the error "container
    not found", which is not nil and differs, as a value and by its
    message, from the wrapped error returned for every other host
    failure. *)
Theorem Pause_Resume_classify_error ctx name (w : World H) :
  let p := ContainerPause c ctx name (host w) in
  let u := ContainerUnpause c ctx name (host w) in
  let wp := logged w (CallPause ctx name) (snd p) in
  let wu := logged w (CallUnpause ctx name) (snd u) in
  (forall err, fst p = Some err ->
     let errCause := Error (errors.UnwrapAll err) in
     (strings.Contains errCause "is already paused" = true ->
        PauseContainer c ctx name w = (Returns ("", None), wp)) /\
     (strings.Contains errCause "is already paused" = false ->
      strings.Contains errCause "No such container" = true ->
        PauseContainer c ctx name w =
        (Returns ("", Some (errors.New "container not found")), wp)) /\
     (strings.Contains errCause "is already paused" = false ->
      strings.Contains errCause "No such container" = false ->
        PauseContainer c ctx name w =
        (Returns ("", Some (errors.Wrap err "failed to pause container")), wp))) /\
  (forall err, fst u = Some err ->
     let errCause := Error (errors.UnwrapAll err) in
     (strings.Contains errCause "is not paused" = true ->
        ResumeContainer c ctx name w = (Returns ("", None), wu)) /\
     (strings.Contains errCause "is not paused" = false ->
      strings.Contains errCause "No such container" = true ->
        ResumeContainer c ctx name w =
        (Returns ("", Some (errors.New "container not found")), wu)) /\
     (strings.Contains errCause "is not paused" = false ->
      strings.Contains errCause "No such container" = false ->
        ResumeContainer c ctx name w =
        (Returns ("", Some (errors.Wrap err "failed to resume container")), wu))) /\
  (forall err msg,
     errors.New "container not found" <> errors.Wrap err msg /\
     Error (errors.New "container not found")
       <> Error (errors.Wrap err "failed to pause container") /\
     Error (errors.New "container not found")
       <> Error (errors.Wrap err "failed to resume container")).
Proof.
  intros p u wp wu.
  pose proof (PauseContainer_eq ctx name w) as P.
  pose proof (ResumeContainer_eq ctx name w) as U.
  cbv zeta in P, U. fold p wp in P. fold u wu in U.
  split; [|split].
  - intros err Hp errCause. rewrite P, Hp. subst errCause.
    split; [|split]; intros; decide_cause; reflexivity.
  - intros err Hu errCause. rewrite U, Hu. subst errCause.
    split; [|split]; intros; decide_cause; reflexivity.
  - intros err msg. split; [|split]; simpl; discriminate.
Qed.

(** C10. The successes that change nothing on the host return the
    empty string with a nil error, whatever the name: pausing a
    container reported as already paused, resuming one reported as
    not paused, destroying one reported as not existing.  The
    successes that did change the host return the name they were
    called with. *)
Theorem noop_success_returns_empty_name ctx name (w : World H) :
  let p := ContainerPause c ctx name (host w) in
  let u := ContainerUnpause c ctx name (host w) in
  let k := ContainerKill c ctx name "KILL" (host w) in
  let r := ContainerRemove c ctx name (snd k) in
  (forall err, fst p = Some err ->
     strings.Contains (Error (errors.UnwrapAll err)) "is already paused" = true ->
     fst (PauseContainer c ctx name w) = Returns ("", None)) /\
  (forall err, fst u = Some err ->
     strings.Contains (Error (errors.UnwrapAll err)) "is not paused" = true ->
     fst (ResumeContainer c ctx name w) = Returns ("", None)) /\
  (forall err, fst k = Some err ->
     strings.Contains (Error (errors.UnwrapAll err)) "is not running" = false ->
     strings.Contains (Error (errors.UnwrapAll err)) "No such container" = true ->
     fst (Destroy c ctx name w) = Returns ("", None)) /\
  (fst p = None -> fst (PauseContainer c ctx name w) = Returns (name, None)) /\
  (fst u = None -> fst (ResumeContainer c ctx name w) = Returns (name, None)) /\
  (fst r = None ->
   (fst k = None \/
    exists err, fst k = Some err /\
      strings.Contains (Error (errors.UnwrapAll err)) "is not running" = true) ->
   fst (Destroy c ctx name w) = Returns (name, None)).
Proof.
  intros p u k r.
  pose proof (PauseContainer_eq ctx name w) as P.
  pose proof (ResumeContainer_eq ctx name w) as U.
  pose proof (Destroy_eq ctx name w) as D.
  cbv zeta in P, U, D. fold p in P. fold u in U. fold k in D.
  change (host (logged w (CallKill ctx name "KILL") (snd k))) with (snd k) in D.
  fold r in D.
  split; [|split; [|split; [|split; [|split]]]].
  - intros err Hp E. rewrite P, Hp, E. reflexivity.
  - intros err Hu E. rewrite U, Hu, E. reflexivity.
  - intros err Hk E1 E2. rewrite D, Hk, E1, E2. reflexivity.
  - intros Hp. rewrite P, Hp. reflexivity.
  - intros Hu. rewrite U, Hu. reflexivity.
  - intros Hr [Hk|[err [Hk E]]]; rewrite D, Hk; [|rewrite E]; rewrite Hr; reflexivity.
Qed.

End Lifecycle.

(** ** Mount options *)

Lemma Split_length s sep :
  length (strings.Split s sep) = S (countByte s sep).
Proof.
  induction s as [|x s IH]; simpl; [reflexivity|].
  destruct (Ascii.eqb x sep); simpl; [now rewrite IH|].
  destruct (strings.Split s sep); simpl in *; lia.
Qed.

Lemma Split_no_sep s sep :
  countByte s sep = 0%nat -> strings.Split s sep = [s].
Proof.
  induction s as [|x s IH]; simpl; [reflexivity|].
  destruct (Ascii.eqb x sep); simpl; [discriminate|].
  intros E. rewrite (IH E). reflexivity.
Qed.

Lemma Split_app h t sep :
  countByte h sep = 0%nat ->
  strings.Split (h +:+ String sep t) sep = h :: strings.Split t sep.
Proof.
  induction h as [|x h IH]; simpl.
  - intros _. rewrite Ascii.eqb_refl. reflexivity.
  - destruct (Ascii.eqb x sep); simpl; [discriminate|].
    intros E. rewrite (IH E). reflexivity.
Qed.

Lemma splitsInTwo_one_colon opt :
  splitsInTwo opt = true <-> countByte opt ":"%char = 1%nat.
Proof.
  unfold splitsInTwo. rewrite Split_length, Nat.eqb_eq. lia.
Qed.

Lemma bindMount_host_container h t :
  countByte h ":"%char = 0%nat -> countByte t ":"%char = 0%nat ->
  splitsInTwo (h +:+ ":" +:+ t) = true /\
  bindMount (h +:+ ":" +:+ t) = {| Type_ := TypeBind; Source := h; Target := t |}.
Proof.
  intros Hh Ht. unfold splitsInTwo, bindMount.
  change (h +:+ ":" +:+ t) with (h +:+ String ":"%char t).
  rewrite (Split_app h t _ Hh), (Split_no_sep t _ Ht). split; reflexivity.
Qed.

Lemma string_length_app s t :
  String.length (s +:+ t) = (String.length s + String.length t)%nat.
Proof. induction s as [|x s IH]; simpl; [reflexivity|now rewrite IH]. Qed.

Lemma string_app_inj_r t s1 : forall s2, s1 +:+ t = s2 +:+ t -> s1 = s2.
Proof.
  induction s1 as [|x s1 IH]; intros [|y s2] E; simpl in E.
  - reflexivity.
  - apply (f_equal String.length) in E.
    rewrite ?string_length_app in E. simpl in E. rewrite ?string_length_app in E. lia.
  - apply (f_equal String.length) in E.
    rewrite ?string_length_app in E. simpl in E. rewrite ?string_length_app in E. lia.
  - injection E as -> E. f_equal. apply IH, E.
Qed.

Lemma natPort_inj p q : natPort p = natPort q -> p = q.
Proof.
  unfold natPort. intros E. apply string_app_inj_r in E.
  apply (inj pretty) in E. exact E.
Qed.

Lemma Itoa_inj p q : Itoa p = Itoa q -> p = q.
Proof. unfold Itoa. apply (inj pretty). Qed.

Section Spec.
Context {H : Type} (c : Client H).

(** The loop fills the slice from index [length pre] on, one bind
    mount per entry, as long as every entry splits in two. *)
Lemma mountLoop_accepts opts : forall (pre rest : list Mount),
  Forall (fun o => splitsInTwo o = true) opts ->
  (length opts <= length rest)%nat ->
  mountLoop (length pre) opts (pre ++ rest) =
  inr (pre ++ map bindMount opts ++ drop (length opts) rest).
Proof.
  induction opts as [|o opts IH]; intros pre rest Hall Hlen; simpl.
  - rewrite drop_0. reflexivity.
  - inversion Hall as [|? ? Ho Hall']; subst.
    unfold splitsInTwo in Ho. rewrite Ho. simpl.
    destruct rest as [|r rest]; simpl in Hlen; [lia|].
    replace (<[length pre := bindMount o]> (pre ++ r :: rest))
      with ((pre ++ [bindMount o]) ++ rest).
    2:{ rewrite insert_app_r_alt by lia. rewrite Nat.sub_diag. simpl.
        rewrite <- app_assoc. reflexivity. }
    replace (S (length pre)) with (length (pre ++ [bindMount o]))
      by (rewrite length_app; simpl; lia).
    rewrite IH by (auto; lia). rewrite <- app_assoc. reflexivity.
Qed.

(** The loop returns at the first entry that does not split in two,
    with an error that names it. *)
Lemma mountLoop_rejects good : forall bad rest i (mountOption : list Mount),
  Forall (fun o => splitsInTwo o = true) good ->
  splitsInTwo bad = false ->
  mountLoop i (good ++ bad :: rest) mountOption =
  inl (errNew ("Invalid mount options " +:+ bad)).
Proof.
  induction good as [|o good IH]; intros bad rest i mo Hall Hbad; simpl.
  - unfold splitsInTwo in Hbad. rewrite Hbad. reflexivity.
  - inversion Hall as [|? ? Ho Hall']; subst.
    unfold splitsInTwo in Ho. rewrite Ho. simpl. apply IH; assumption.
Qed.

(** The mounts of the specification when every entry splits in two. *)
Lemma mounts_accepted opts buildContext :
  Forall (fun o => splitsInTwo o = true) opts ->
  match mountLoop 0 opts (replicate (length opts + 1) zeroMount) with
  | inl _ => False
  | inr mo =>
      <[length opts := contextMount buildContext]> mo =
      map bindMount opts ++ [contextMount buildContext]
  end.
Proof.
  intros Hall.
  pose proof (mountLoop_accepts opts [] (replicate (length opts + 1) zeroMount) Hall) as E.
  simpl in E. rewrite E by (rewrite length_replicate; lia).
  rewrite drop_replicate. replace (length opts + 1 - length opts)%nat with 1%nat by lia.
  simpl. rewrite insert_app_r_alt by (rewrite length_map; lia).
  rewrite length_map, Nat.sub_diag. reflexivity.
Qed.

Lemma mountLoop_inr opts : forall i (mo mo' : list Mount),
  mountLoop i opts mo = inr mo' -> Forall (fun o => splitsInTwo o = true) opts.
Proof.
  induction opts as [|o opts IH]; intros i mo mo'; simpl; [constructor|].
  destruct (Nat.eqb (length (strings.Split o ":"%char)) 2) eqn:E; simpl; [|discriminate].
  intros L. constructor; [exact E | eapply IH; exact L].
Qed.

Lemma servicePort_eq {A} (cfg : option A) p pb ep (w : World H) :
  servicePort c cfg p pb ep w =
  match cfg with
  | None => (Returns (inr (0, pb, ep)), w)
  | Some _ =>
      let a := GetFreePort c (host w) in
      (Returns match snd (fst a) with
               | Some e => inl (errors.Wrap e "failed to get a free port")
               | None => inr (fst (fst a),
                              <[natPort p := loopback (fst (fst a))]> pb,
                              {[ natPort p ]} ∪ ep)
               end,
       logged w CallGetFreePort (snd a))
  end.
Proof.
  unfold servicePort, bind, call, ret. destruct cfg; [|reflexivity].
  destruct (GetFreePort c (host w)) as [[q [e|]] h]; reflexivity.
Qed.

(** What a specification that [buildSpec] returns looks like, ports
    apart. *)
Lemma buildSpec_inr tag name buildContext gpuEnabled numGPUs sshPortInHost g opts
    (w w' : World H) config hostConfig :
  buildSpec c tag name buildContext gpuEnabled numGPUs sshPortInHost g opts w
    = (Returns (inr (config, hostConfig)), w') ->
  Forall (fun o => splitsInTwo o = true) opts /\
  Image config = tag /\ User config = "envd" /\
  WorkingDir config = filepath.Join ["/home/envd"; fileutil.Base buildContext] /\
  Mounts hostConfig = map bindMount opts ++ [contextMount buildContext] /\
  DeviceRequests hostConfig = (if gpuEnabled then deviceRequests numGPUs else []).
Proof.
  unfold buildSpec.
  destruct (mountLoop 0 opts _) as [err|mo] eqn:ML; [discriminate|].
  pose proof (mountLoop_inr _ _ _ _ ML) as Hall.
  pose proof (mounts_accepted opts buildContext Hall) as Hm. rewrite ML in Hm.
  fold (contextMount buildContext). rewrite Hm.
  unfold bind. rewrite servicePort_eq.
  destruct (JupyterConfig g); cbv zeta.
  all: repeat match goal with
       | |- context [GetFreePort c ?h] =>
           destruct (GetFreePort c h) as [[? [?|]] ?]; simpl; [discriminate|]
       end.
  all: rewrite servicePort_eq.
  all: destruct (RStudioServerConfig g); cbv zeta.
  all: repeat match goal with
       | |- context [GetFreePort c ?h] =>
           destruct (GetFreePort c h) as [[? [?|]] ?]; simpl; [discriminate|]
       end.
  all: unfold ret; intros [= <- <- <-]; simpl.
  all: repeat split; assumption || reflexivity.
Qed.

(** When every entry splits in two, [buildSpec] returns a
    specification unless the port allocator fails. *)
Lemma buildSpec_accepted tag name buildContext gpuEnabled numGPUs sshPortInHost g opts
    (w : World H) :
  Forall (fun o => splitsInTwo o = true) opts ->
  (exists e w',
     buildSpec c tag name buildContext gpuEnabled numGPUs sshPortInHost g opts w
     = (Returns (inl (errors.Wrap e "failed to get a free port")), w')) \/
  (exists config hostConfig w',
     buildSpec c tag name buildContext gpuEnabled numGPUs sshPortInHost g opts w
     = (Returns (inr (config, hostConfig)), w')).
Proof.
  intros Hall. unfold buildSpec.
  pose proof (mounts_accepted opts buildContext Hall) as Hm.
  destruct (mountLoop 0 opts _) as [err|mo]; [contradiction|].
  unfold bind. rewrite servicePort_eq.
  destruct (JupyterConfig g); cbv zeta.
  all: repeat match goal with
       | |- context [GetFreePort c ?h] =>
           destruct (GetFreePort c h) as [[? [?|]] ?]; simpl;
           [left; eexists _, _; reflexivity|]
       end.
  all: rewrite servicePort_eq.
  all: destruct (RStudioServerConfig g); cbv zeta.
  all: repeat match goal with
       | |- context [GetFreePort c ?h] =>
           destruct (GetFreePort c h) as [[? [?|]] ?]; simpl;
           [left; eexists _, _; reflexivity|]
       end.
  all: right; eexists _, _, _; reflexivity.
Qed.

(** [StartEnvd] returns at once with the error of [buildSpec]. *)
Lemma StartEnvd_spec_error ctx tag name buildContext gpuEnabled numGPUs sshPortInHost g
    timeout opts (w w' : World H) err :
  buildSpec c tag name buildContext gpuEnabled numGPUs sshPortInHost g opts w
    = (Returns (inl err), w') ->
  StartEnvd c ctx tag name buildContext gpuEnabled numGPUs sshPortInHost g timeout opts w
    = (Returns ("", "", Some err), w').
Proof. intros E. unfold StartEnvd, bind. rewrite E. reflexivity. Qed.

(** C2, amended.  [StartEnvd] accepts a mount option exactly when it
    holds one colon; an option [hostPath:containerPath] without
    further colons becomes the bind mount of [hostPath] on
    [containerPath], either of which may be empty.  At the first
    option that is not accepted the call returns the error "Invalid
    mount options" followed by that option, before any request is
    sent.  When all options are accepted the mounts of the
    specification are their bind mounts in order, followed by the
    mount of the build context. *)
Theorem mount_options_split_on_every_colon
    ctx tag name buildContext gpuEnabled numGPUs sshPortInHost g timeout (w : World H) :
  (forall opt, splitsInTwo opt = true <-> countByte opt ":"%char = 1%nat) /\
  (forall h t, countByte h ":"%char = 0%nat -> countByte t ":"%char = 0%nat ->
     splitsInTwo (h +:+ ":" +:+ t) = true /\
     bindMount (h +:+ ":" +:+ t) = {| Type_ := TypeBind; Source := h; Target := t |}) /\
  (forall good bad rest,
     Forall (fun o => splitsInTwo o = true) good -> splitsInTwo bad = false ->
     StartEnvd c ctx tag name buildContext gpuEnabled numGPUs sshPortInHost g timeout
               (good ++ bad :: rest) w
     = (Returns ("", "", Some (errNew ("Invalid mount options " +:+ bad))), w)) /\
  (forall opts, Forall (fun o => splitsInTwo o = true) opts ->
     (exists e w',
        buildSpec c tag name buildContext gpuEnabled numGPUs sshPortInHost g opts w
        = (Returns (inl (errors.Wrap e "failed to get a free port")), w')) \/
     (exists config hostConfig w',
        buildSpec c tag name buildContext gpuEnabled numGPUs sshPortInHost g opts w
        = (Returns (inr (config, hostConfig)), w') /\
        Mounts hostConfig = map bindMount opts ++ [contextMount buildContext])).
Proof.
  split; [exact splitsInTwo_one_colon|].
  split; [exact bindMount_host_container|].
  split.
  - intros good bad rest Hgood Hbad. apply StartEnvd_spec_error.
    unfold buildSpec. rewrite (mountLoop_rejects good bad rest) by assumption.
    reflexivity.
  - intros opts Hall.
    destruct (buildSpec_accepted tag name buildContext gpuEnabled numGPUs
                sshPortInHost g opts w Hall) as [E|(config & hostConfig & w' & E)];
      [left; exact E|right].
    exists config, hostConfig, w'. split; [exact E|].
    apply buildSpec_inr in E. tauto.
Qed.

(** C7. A specification built with [gpuEnabled] holds exactly one
    device request: driver nvidia, the eight fixed capabilities and
    [numGPUs] as count.  A specification built without it holds no
    device request. *)
Theorem gpu_device_requests tag name buildContext gpuEnabled numGPUs sshPortInHost g opts
    (w w' : World H) config hostConfig :
  0 <= numGPUs ->
  buildSpec c tag name buildContext gpuEnabled numGPUs sshPortInHost g opts w
    = (Returns (inr (config, hostConfig)), w') ->
  (gpuEnabled = true ->
     DeviceRequests hostConfig =
       [ {| Driver := "nvidia"; Count := numGPUs; Capabilities := gpuCapabilities |} ]) /\
  (gpuEnabled = false -> DeviceRequests hostConfig = []) /\
  length gpuCapabilities = 8%nat /\ NoDup gpuCapabilities.
Proof.
  intros _ E. apply buildSpec_inr in E.
  destruct E as (_ & _ & _ & _ & _ & D). rewrite D.
  split; [intros ->; reflexivity|]. split; [intros ->; reflexivity|].
  split; [reflexivity|]. apply (bool_decide_unpack _). vm_compute. exact I.
Qed.

(** C6, amended.  With both services declared and an allocator that
    answers, the specification holds three port bindings, one per
    container port, each on the loopback address: the caller's port
    for ssh and the allocator's answers, as they come, for Jupyter and
    RStudio.  No binding overwrites another.  No test is made on the
    host ports: the specification is built whether or not they
    differ, and they differ exactly when the three ports do. *)
Theorem port_bindings_follow_the_allocator
    tag name buildContext gpuEnabled numGPUs sshPortInHost g opts
    (w : World H) p1 h1 p2 h2 :
  JupyterConfig g <> None -> RStudioServerConfig g <> None ->
  Forall (fun o => splitsInTwo o = true) opts ->
  GetFreePort c (host w) = ((p1, None), h1) ->
  GetFreePort c h1 = ((p2, None), h2) ->
  SSHPortInContainer c <> JupyterPortInContainer c ->
  SSHPortInContainer c <> RStudioServerPortInContainer c ->
  JupyterPortInContainer c <> RStudioServerPortInContainer c ->
  exists config hostConfig,
    buildSpec c tag name buildContext gpuEnabled numGPUs sshPortInHost g opts w
    = (Returns (inr (config, hostConfig)),
       logged (logged w CallGetFreePort h1) CallGetFreePort h2) /\
    PortBindings hostConfig !! natPort (SSHPortInContainer c)
      = Some (loopback sshPortInHost) /\
    PortBindings hostConfig !! natPort (JupyterPortInContainer c)
      = Some (loopback p1) /\
    PortBindings hostConfig !! natPort (RStudioServerPortInContainer c)
      = Some (loopback p2) /\
    size (PortBindings hostConfig) = 3%nat /\
    ExposedPorts config = {[ natPort (RStudioServerPortInContainer c) ]}
                          ∪ ({[ natPort (JupyterPortInContainer c) ]} ∪ ∅) /\
    (NoDup [Itoa sshPortInHost; Itoa p1; Itoa p2] <-> NoDup [sshPortInHost; p1; p2]).
Proof.
  intros Hj Hr Hall G1 G2 Dsj Dsr Djr.
  assert (Nsj : natPort (SSHPortInContainer c) <> natPort (JupyterPortInContainer c))
    by (intros E; apply natPort_inj in E; contradiction).
  assert (Nsr : natPort (SSHPortInContainer c) <> natPort (RStudioServerPortInContainer c))
    by (intros E; apply natPort_inj in E; contradiction).
  assert (Njr : natPort (JupyterPortInContainer c) <> natPort (RStudioServerPortInContainer c))
    by (intros E; apply natPort_inj in E; contradiction).
  unfold buildSpec.
  pose proof (mounts_accepted opts buildContext Hall) as Hm.
  destruct (mountLoop 0 opts _) as [err|mo]; [contradiction|].
  unfold bind. rewrite servicePort_eq.
  destruct (JupyterConfig g); [|congruence]. cbv zeta. rewrite G1. simpl.
  rewrite servicePort_eq.
  destruct (RStudioServerConfig g); [|congruence]. cbv zeta. simpl. rewrite G2. simpl.
  unfold ret. eexists _, _. split; [reflexivity|]. simpl.
  split; [by simplify_map_eq|]. split; [by simplify_map_eq|].
  split; [by simplify_map_eq|]. split.
  - rewrite !map_size_insert_None by (by simplify_map_eq). reflexivity.
  - split; [reflexivity|].
    change [Itoa sshPortInHost; Itoa p1; Itoa p2] with (Itoa <$> [sshPortInHost; p1; p2]).
    apply (NoDup_fmap (A := Z) Itoa).
Qed.

(** C9. The working directory of a built specification is the base
    name of the build context joined to /home/envd, and the last
    mount, which is always there, binds the build context on it.  From
    the build context /proj, ssh port 2222, no service, no GPU and the
    mount option /host/data:/data the specification has the working
    directory /home/envd/proj, two mounts, the one ssh binding on
    127.0.0.1:2222, no device request and no exposed port. *)
Theorem working_directory_is_joined_base_name
    tag name buildContext gpuEnabled numGPUs sshPortInHost g opts
    (w w' : World H) config hostConfig :
  buildSpec c tag name buildContext gpuEnabled numGPUs sshPortInHost g opts w
    = (Returns (inr (config, hostConfig)), w') ->
  (WorkingDir config = filepath.Join ["/home/envd"; fileutil.Base buildContext] /\
   last (Mounts hostConfig)
     = Some {| Type_ := TypeBind; Source := buildContext; Target := WorkingDir config |} /\
   length (Mounts hostConfig) = S (length opts)) /\
  buildSpec c "img" "c1" "/proj" false 0 2222 noServices ["/host/data:/data"] w
    = (Returns (inr ({| Image := "img"; User := "envd"; ExposedPorts := ∅;
                        WorkingDir := "/home/envd/proj"; Entrypoint := [];
                        Labels := labels c "c1" noServices 2222 0 0 |},
                     {| PortBindings :=
                          {[ natPort (SSHPortInContainer c) :=
                               [ {| HostIP := "127.0.0.1"; HostPort := "2222" |} ] ]};
                        Mounts :=
                          [ {| Type_ := "bind"; Source := "/host/data"; Target := "/data" |};
                            {| Type_ := "bind"; Source := "/proj";
                               Target := "/home/envd/proj" |} ];
                        DeviceRequests := [] |})), w).
Proof.
  intros E. split; [|reflexivity].
  apply buildSpec_inr in E. destruct E as (_ & _ & _ & Wd & Mo & _).
  rewrite Wd, Mo. split; [reflexivity|]. split.
  - rewrite last_snoc. reflexivity.
  - rewrite length_app, length_map. simpl. lia.
Qed.


End Spec.

(** ** WaitUntilRunning *)

Lemma interval_pos : 0 < interval.
Proof. reflexivity. Qed.

(** The ticks before a deadline [D] away: [q] of them fall strictly
    before it, and tick [q + 1] falls on it or after it. *)
Lemma ticks_before D :
  0 < D ->
  let q := (D - 1) / interval in
  0 <= q /\ q * interval < D /\ D <= (q + 1) * interval /\
  (D mod interval = 0 <-> D = (q + 1) * interval) /\
  q <= D / interval /\ (D mod interval = 0 -> q + 1 <= D / interval).
Proof.
  intros HD q. pose proof interval_pos as Hi.
  pose proof (Z.div_mod (D - 1) interval ltac:(lia)) as E1.
  pose proof (Z.mod_pos_bound (D - 1) interval Hi) as B1.
  pose proof (Z.div_mod D interval ltac:(lia)) as E2.
  pose proof (Z.mod_pos_bound D interval Hi) as B2.
  fold q in E1.
  assert (Hq : 0 <= q) by (apply Z.div_pos; lia).
  assert (Hle : q <= D / interval) by (apply Z.div_le_mono; lia).
  assert (Hdiv : D mod interval = 0 -> D / interval = q + 1).
  { intros M. rewrite M in E2.
    assert (0 < D / interval - q) by nia.
    assert (D / interval - q < 2) by nia. lia. }
  split; [exact Hq|]. split; [nia|]. split; [nia|]. split; [split|split].
  - intros M. apply Hdiv in M. nia.
  - intros E. rewrite E. apply Z.mod_mul. lia.
  - exact Hle.
  - intros M. apply Hdiv in M. lia.
Qed.

Section Waiting.
Context {H : Type} (c : Client H).

(** [IsRunning] sends one inspection and answers from it alone. *)
Lemma IsRunning_eq ctx name (w : World H) :
  IsRunning c ctx name w =
  (poll c ctx name 0 (host w),
   logged w (CallInspect ctx name) (snd (ContainerInspect c ctx name (host w)))).
Proof.
  unfold poll, IsRunning, GetContainer, bind, call. simpl.
  destruct (ContainerInspect c ctx name (host w)) as [[cj [e|]] h]; simpl.
  - destruct (IsErrNotFound c e); reflexivity.
  - destruct (Base cj) as [b|]; simpl; [|reflexivity].
    destruct (State b); reflexivity.
Qed.

Lemma poll_not_OutOfFuel ctx name k (h : H) : poll c ctx name k h <> OutOfFuel.
Proof.
  unfold poll, IsRunning, GetContainer, bind, call. simpl.
  destruct (ContainerInspect c ctx name _) as [[cj [e|]] h']; simpl.
  - destruct (IsErrNotFound c e); discriminate.
  - destruct (Base cj) as [b|]; simpl; [|discriminate].
    destruct (State b); discriminate.
Qed.

Lemma poll_S ctx name k (h : H) :
  poll c ctx name (S k) h = poll c ctx name k (snd (ContainerInspect c ctx name h)).
Proof. reflexivity. Qed.

(** The branch taken when the context is done. *)
Lemma deadline_branch ctx name timeout (w : World H) :
  (r <- GetContainer c ctx name ;;
   let (container, _) := r in
   base <- deref (Base container) ;;
   let _ := State base in
   ret (Some (errTimeout c timeout))) w =
  (match Base (fst (fst (ContainerInspect c ctx name (host w)))) with
   | Some _ => Returns (Some (errTimeout c timeout))
   | None => Panics nilDereference
   end,
   logged w (CallInspect ctx name) (snd (ContainerInspect c ctx name (host w)))).
Proof.
  unfold GetContainer, bind, call.
  destruct (ContainerInspect c ctx name (host w)) as [[cj e] h]; simpl.
  destruct (Base cj); reflexivity.
Qed.

Section Loop.
Variables (ctx ctxTimeout : Ctx) (name : string) (timeout d : Z).
Hypothesis deadline_d : deadline ctxTimeout = Some d.

Local Abbreviation loop fuel := (WaitUntilRunning_loop c fuel ctx ctxTimeout name timeout).

Lemma afterPolls_S n : forall w : World H,
  afterPolls c ctxTimeout name d (S n) w
  = afterPoll c ctxTimeout name d (afterPolls c ctxTimeout name d n w).
Proof.
  induction n as [|n IH]; intros w; [reflexivity|].
  change (afterPolls c ctxTimeout name d (S (S n)) w)
    with (afterPolls c ctxTimeout name d (S n) (afterPoll c ctxTimeout name d w)).
  rewrite IH. reflexivity.
Qed.

Lemma afterPoll_fields (w : World H) :
  host (afterPoll c ctxTimeout name d w)
    = snd (ContainerInspect c ctxTimeout name (host w)) /\
  now (afterPoll c ctxTimeout name d w) = now w + interval /\
  calls (afterPoll c ctxTimeout name d w)
    = calls w ++ [(now w + interval, CallInspect ctxTimeout name)] /\
  (now w + interval < d -> sched (afterPoll c ctxTimeout name d w) = sched w).
Proof.
  unfold afterPoll.
  destruct (Z.eqb_spec (now w + interval) d) as [E|E]; simpl;
    repeat split; try reflexivity; intros; lia.
Qed.

Lemma afterPolls_fields n : forall w : World H,
  host (afterPolls c ctxTimeout name d n w) = hostAfter c ctxTimeout name n (host w) /\
  now (afterPolls c ctxTimeout name d n w) = now w + Z.of_nat n * interval /\
  calls (afterPolls c ctxTimeout name d n w)
    = calls w ++ pollCalls ctxTimeout name (now w) n /\
  (now w + Z.of_nat n * interval < d ->
   sched (afterPolls c ctxTimeout name d n w) = sched w).
Proof.
  pose proof interval_pos as Hi.
  induction n as [|n IH]; intros w.
  - simpl. rewrite app_nil_r. repeat split; lia.
  - change (afterPolls c ctxTimeout name d (S n) w)
      with (afterPolls c ctxTimeout name d n (afterPoll c ctxTimeout name d w)).
    destruct (IH (afterPoll c ctxTimeout name d w)) as (Ih & In & Ic & Is).
    destruct (afterPoll_fields w) as (Ph & Pn & Pc & Ps).
    rewrite Ih, In, Ic, Ph, Pn, Pc. simpl pollCalls.
    split; [reflexivity|]. split; [lia|]. split; [now rewrite <- app_assoc|].
    intros L. rewrite Is by (rewrite Pn; lia). apply Ps. nia.
Qed.

(** One iteration in which the timer fires. *)
Lemma loop_tick fuel (w : World H) :
  fires d 1 w ->
  loop (S fuel) w =
  match poll c ctxTimeout name 0 (host w) with
  | Returns (_, Some err) =>
      (Returns (Some (errors.Wrap err "failed to check if container is running")),
       afterPoll c ctxTimeout name d w)
  | Returns (true, None) => (Returns None, afterPoll c ctxTimeout name d w)
  | Returns (false, None) => loop fuel (afterPoll c ctxTimeout name d w)
  | Panics msg => (Panics msg, afterPoll c ctxTimeout name d w)
  | OutOfFuel => (OutOfFuel, afterPoll c ctxTimeout name d w)
  end.
Proof.
  pose proof interval_pos as Hi. unfold fires. rewrite Z.mul_1_l. intros F.
  assert (S1 : select ctxTimeout w
               = (Returns timeAfter,
                  if now w + interval =? d
                  then nextChoice (wakeAt w (now w + interval))
                  else wakeAt w (now w + interval))).
  { unfold select. rewrite deadline_d.
    destruct (Z.leb_spec d (now w)); [lia|].
    destruct (Z.ltb_spec (now w + interval) d);
      destruct (Z.eqb_spec (now w + interval) d); try lia; [reflexivity|].
    destruct (Z.ltb_spec d (now w + interval)); [lia|].
    destruct F as [F|[_ F]]; [lia|]. rewrite F. subst d. reflexivity. }
  simpl. unfold bind at 1. rewrite S1. unfold bind at 1. rewrite IsRunning_eq.
  unfold afterPoll.
  destruct (now w + interval =? d); simpl;
    destruct (poll c ctxTimeout name 0 (host w)) as [[[|] [e|]]| |]; reflexivity.
Qed.

(** The iteration in which the context is done. *)
Lemma loop_done fuel (w : World H) :
  expires d w ->
  exists w1,
    loop (S fuel) w =
    (match Base (fst (fst (ContainerInspect c ctx name (host w)))) with
     | Some _ => Returns (Some (errTimeout c timeout))
     | None => Panics nilDereference
     end,
     logged w1 (CallInspect ctx name) (snd (ContainerInspect c ctx name (host w)))) /\
    host w1 = host w /\ now w1 = Z.max (now w) d /\ calls w1 = calls w.
Proof.
  pose proof interval_pos as Hi. intros E.
  assert (S1 : exists w1, select ctxTimeout w = (Returns ctxDone, w1) /\
               host w1 = host w /\ now w1 = Z.max (now w) d /\ calls w1 = calls w).
  { unfold select. rewrite deadline_d.
    destruct (Z.leb_spec d (now w)).
    { exists w. repeat split; lia. }
    destruct (Z.ltb_spec (now w + interval) d).
    { destruct E as [E|[E|[E _]]]; lia. }
    destruct (Z.ltb_spec d (now w + interval)).
    { eexists; split; [reflexivity|]. simpl. repeat split; lia. }
    destruct E as [E|[E|[_ E]]]; try lia. rewrite E.
    eexists; split; [reflexivity|]. simpl. repeat split; lia. }
  destruct S1 as (w1 & S1 & Hh & Hn & Hc). exists w1.
  split; [|auto]. simpl. unfold bind at 1. rewrite S1.
  rewrite deadline_branch, Hh. reflexivity.
Qed.

(** [n] polls that all observe a container that is not running. *)
Lemma loop_idle n : forall fuel (w : World H),
  (forall k, (k < n)%nat -> poll c ctxTimeout name k (host w) = Returns (false, None)) ->
  (n = 0%nat \/ fires d n w) ->
  loop (n + fuel) w = loop fuel (afterPolls c ctxTimeout name d n w).
Proof.
  pose proof interval_pos as Hi.
  induction n as [|n IH]; intros fuel w Hidle F; [reflexivity|].
  destruct F as [F|F]; [discriminate|].
  change (S n + fuel)%nat with (S (n + fuel)).
  rewrite loop_tick.
  2:{ unfold fires in *. destruct n; [exact F|]. left. nia. }
  rewrite (Hidle 0%nat) by lia.
  change (afterPolls c ctxTimeout name d (S n) w)
    with (afterPolls c ctxTimeout name d n (afterPoll c ctxTimeout name d w)).
  destruct (afterPoll_fields w) as (Ph & Pn & _ & Ps).
  apply IH.
  - intros k Hk. rewrite Ph, <- poll_S. apply Hidle. lia.
  - destruct n; [left; reflexivity|right].
    unfold fires in *. rewrite Pn, Ps by nia. destruct F as [F|[F1 F2]]; [left|right]; [lia|].
    split; [lia|exact F2].
Qed.

Lemma fires_or_expires (w : World H) : fires d 1 w \/ expires d w.
Proof.
  unfold fires, expires. rewrite Z.mul_1_l.
  destruct (sched w 0%nat); lia.
Qed.

(** [n] idle polls, then the poll that ends the wait or not. *)
Lemma loop_poll n fuel (w : World H) :
  (forall k, (k < n)%nat -> poll c ctxTimeout name k (host w) = Returns (false, None)) ->
  fires d (S n) w ->
  loop (S n + fuel) w =
  match poll c ctxTimeout name n (host w) with
  | Returns (_, Some err) =>
      (Returns (Some (errors.Wrap err "failed to check if container is running")),
       afterPolls c ctxTimeout name d (S n) w)
  | Returns (true, None) => (Returns None, afterPolls c ctxTimeout name d (S n) w)
  | Returns (false, None) => loop fuel (afterPolls c ctxTimeout name d (S n) w)
  | Panics msg => (Panics msg, afterPolls c ctxTimeout name d (S n) w)
  | OutOfFuel => (OutOfFuel, afterPolls c ctxTimeout name d (S n) w)
  end.
Proof.
  pose proof interval_pos as Hi. intros Hidle F.
  replace (S n + fuel)%nat with (n + S fuel)%nat by lia.
  assert (Fn : n = 0%nat \/ fires d n w).
  { destruct n; [left; reflexivity|right]. unfold fires in *. left. nia. }
  rewrite (loop_idle n (S fuel) w Hidle Fn).
  destruct (afterPolls_fields n w) as (Ph & Pn & _ & Ps).
  rewrite loop_tick.
  - rewrite Ph, afterPolls_S. reflexivity.
  - unfold fires in *. rewrite Pn.
    replace (now w + Z.of_nat n * interval + Z.of_nat 1 * interval)
      with (now w + Z.of_nat (S n) * interval) by lia.
    destruct F as [F|[F1 F2]]; [left; exact F|right].
    split; [exact F1|]. rewrite Ps by nia. exact F2.
Qed.

(** Whatever the host answers, the loop sends polls one interval
    apart, then perhaps the inspection of the deadline, never sleeps
    past the deadline, and ends within the iterations that fit
    before the deadline. *)
Lemma loop_general fuel : forall (w w' : World H) res,
  loop fuel w = (res, w') ->
  now w <= now w' <= Z.max (now w) d /\
  (exists m rest,
     calls w' = calls w ++ pollCalls ctxTimeout name (now w) m ++ rest /\
     (rest = [] \/ rest = [(now w', CallInspect ctx name)])) /\
  ((Z.to_nat ((d - now w) / interval) < fuel)%nat -> res <> OutOfFuel).
Proof.
  pose proof interval_pos as Hi.
  induction fuel as [|fuel IH]; intros w w' res E.
  { simpl in E. injection E as <- <-. split; [lia|]. split; [|lia].
    exists 0%nat, []. rewrite !app_nil_r. auto. }
  destruct (fires_or_expires w) as [F|X].
  - rewrite (loop_tick fuel w F) in E.
    destruct (afterPoll_fields w) as (_ & Pn & Pc & _).
    assert (Hd : now w + interval <= d)
      by (unfold fires in F; rewrite Z.mul_1_l in F; lia).
    assert (T : forall r, (r, afterPoll c ctxTimeout name d w) = (res, w') ->
                r <> OutOfFuel ->
                now w <= now w' <= Z.max (now w) d /\
                (exists m rest,
                   calls w' = calls w ++ pollCalls ctxTimeout name (now w) m ++ rest /\
                   (rest = [] \/ rest = [(now w', CallInspect ctx name)])) /\
                ((Z.to_nat ((d - now w) / interval) < S fuel)%nat -> res <> OutOfFuel)).
    { intros r [= <- <-] Hr. rewrite Pn, Pc. split; [lia|]. split; [|auto].
      exists 1%nat, []. rewrite app_nil_r. auto. }
    pose proof (poll_not_OutOfFuel ctxTimeout name 0 (host w)) as NO.
    destruct (poll c ctxTimeout name 0 (host w)) as [[[|] [e|]]| |];
      try (apply (T _ E); discriminate); [|contradiction].
    apply IH in E. rewrite Pn, Pc in E. destruct E as (En & (m & rest & Ec & Er) & Ef).
    split; [lia|]. split.
    + exists (S m), rest. split; [|exact Er]. rewrite Ec. simpl.
      rewrite <- app_assoc. reflexivity.
    + intros Lf. apply Ef.
      replace (d - (now w + interval)) with ((d - now w) + (-1) * interval) by lia.
      rewrite Z.div_add by lia.
      assert (1 <= (d - now w) / interval)
        by (apply Z.div_le_lower_bound; lia).
      lia.
  - destruct (loop_done fuel w X) as (w1 & E1 & Hh & Hn & Hc).
    rewrite E1 in E. injection E as <- <-. simpl. rewrite Hn, Hc.
    split; [lia|]. split.
    + exists 0%nat, [(Z.max (now w) d, CallInspect ctx name)]. simpl. auto.
    + intros _. destruct (Base _); discriminate.
Qed.

End Loop.

Section Wait.
Variables (ctx : Ctx) (name : string) (timeout : Z) (w : World H).

Local Abbreviation t0 := (now w).
Local Abbreviation ctxTimeout := (WithTimeout ctx timeout (now w)).
Local Abbreviation d := (doneAt (WithTimeout ctx timeout (now w))).
Local Abbreviation due := (pollsDue (now w) d (sched w 0%nat)).

Lemma deadline_doneAt : deadline ctxTimeout = Some d.
Proof. reflexivity. Qed.

Lemma due_fires n : (n < due)%nat -> fires d (S n) w.
Proof.
  pose proof interval_pos as Hi. unfold pollsDue, fires.
  destruct (Z.leb_spec d t0) as [L|L]; [lia|].
  destruct (ticks_before (d - t0) ltac:(lia)) as (Q0 & Q1 & Q2 & Q3 & _).
  destruct (Z.eqb_spec ((d - t0) mod interval) 0) as [M|M]; simpl.
  - apply Q3 in M. destruct (sched w 0%nat); intros Hn.
    + destruct (decide (Z.of_nat (S n) = (d - t0 - 1) / interval + 1)) as [E|E].
      * right. split; [rewrite E; lia|reflexivity].
      * left. nia.
    + left. nia.
  - intros Hn. left. nia.
Qed.

Lemma due_expires : expires d (afterPolls c ctxTimeout name d due w).
Proof.
  pose proof interval_pos as Hi.
  destruct (afterPolls_fields ctxTimeout name d due w) as (_ & Pn & _ & Ps).
  unfold expires. rewrite Pn. revert Ps. unfold pollsDue.
  destruct (Z.leb_spec d t0) as [L|L]; [intros _; left; simpl; lia|].
  destruct (ticks_before (d - t0) ltac:(lia)) as (Q0 & Q1 & Q2 & Q3 & _).
  destruct (Z.eqb_spec ((d - t0) mod interval) 0) as [M|M]; simpl.
  - apply Q3 in M. destruct (sched w 0%nat) eqn:P; intros Ps.
    + left. nia.
    + right. right. rewrite Ps by nia. split; [nia|exact P].
  - intros _. right. left.
    assert (d - t0 <> ((d - t0 - 1) / interval + 1) * interval)
      by (intros E; apply M, Q3, E).
    nia.
Qed.

Lemma due_fuel : (due <= ticksBefore ctxTimeout t0)%nat.
Proof.
  pose proof interval_pos as Hi. unfold ticksBefore, pollsDue.
  rewrite deadline_doneAt.
  destruct (Z.leb_spec d t0) as [L|L]; [lia|].
  destruct (ticks_before (d - t0) ltac:(lia)) as (Q0 & _ & _ & _ & Q4 & Q5).
  destruct (Z.eqb_spec ((d - t0) mod interval) 0) as [M|M]; simpl.
  - specialize (Q5 M). destruct (sched w 0%nat); lia.
  - lia.
Qed.

(** After [n] idle polls, poll [n], when it is due, decides: a
    failed query or a running container ends the wait at once. *)
Lemma WaitUntilRunning_at_poll n :
  (forall k, (k < n)%nat -> poll c ctxTimeout name k (host w) = Returns (false, None)) ->
  (n < due)%nat ->
  WaitUntilRunning c ctx name timeout w =
  match poll c ctxTimeout name n (host w) with
  | Returns (_, Some err) =>
      (Returns (Some (errors.Wrap err "failed to check if container is running")),
       afterPolls c ctxTimeout name d (S n) w)
  | Returns (true, None) => (Returns None, afterPolls c ctxTimeout name d (S n) w)
  | Returns (false, None) =>
      WaitUntilRunning_loop c (ticksBefore ctxTimeout t0 + 1 - n) ctx ctxTimeout name
        timeout (afterPolls c ctxTimeout name d (S n) w)
  | Panics msg => (Panics msg, afterPolls c ctxTimeout name d (S n) w)
  | OutOfFuel => (OutOfFuel, afterPolls c ctxTimeout name d (S n) w)
  end.
Proof.
  intros Hidle Hn. pose proof due_fuel as Hf. unfold WaitUntilRunning.
  replace (ticksBefore ctxTimeout t0 + 2)%nat
    with (S n + (ticksBefore ctxTimeout t0 + 1 - n))%nat by lia.
  apply (loop_poll ctx ctxTimeout name timeout d deadline_doneAt); [exact Hidle|].
  apply due_fires, Hn.
Qed.

(** After as many idle polls as are due, the context is done: the
    diagnostic inspection is sent, and its answer is read through
    the embedded pointer. *)
Lemma WaitUntilRunning_at_deadline :
  (forall k, (k < due)%nat -> poll c ctxTimeout name k (host w) = Returns (false, None)) ->
  exists w',
    WaitUntilRunning c ctx name timeout w =
    (match Base (fst (fst (diagnostic c ctx ctxTimeout name due (host w)))) with
     | Some _ => Returns (Some (errTimeout c timeout))
     | None => Panics nilDereference
     end, w') /\
    now w' = Z.max t0 d /\
    host w' = snd (diagnostic c ctx ctxTimeout name due (host w)) /\
    calls w' = calls w ++ pollCalls ctxTimeout name t0 due
                       ++ [(Z.max t0 d, CallInspect ctx name)].
Proof.
  pose proof interval_pos as Hi.
  intros Hidle. pose proof due_fuel as Hf. unfold WaitUntilRunning.
  replace (ticksBefore ctxTimeout t0 + 2)%nat
    with (due + S (ticksBefore ctxTimeout t0 + 1 - due))%nat by lia.
  rewrite (loop_idle ctx ctxTimeout name timeout d deadline_doneAt due _ w Hidle).
  2:{ destruct due as [|n] eqn:E; [left; reflexivity|right].
      apply due_fires. rewrite E. lia. }
  destruct (loop_done ctx ctxTimeout name timeout d deadline_doneAt
              (ticksBefore ctxTimeout t0 + 1 - due)
              (afterPolls c ctxTimeout name d due w) due_expires)
    as (w1 & E1 & Hh & Hn & Hc).
  destruct (afterPolls_fields ctxTimeout name d due w) as (Ph & Pn & Pc & _).
  rewrite Ph in E1, Hh. rewrite Pn in Hn. rewrite Pc in Hc.
  eexists. split; [exact E1|]. simpl. rewrite Hn, Hc.
  assert (Hmax : Z.max (t0 + Z.of_nat due * interval) d = Z.max t0 d).
  { pose proof due_expires as X. unfold expires in X. rewrite Pn in X.
    destruct due as [|n] eqn:E; [f_equal; lia|].
    pose proof (due_fires n ltac:(lia)) as F. unfold fires in F. lia. }
  rewrite Hmax. split; [reflexivity|]. split; [reflexivity|].
  rewrite <- app_assoc. reflexivity.
Qed.

(** Whatever the host answers, [WaitUntilRunning] ends, never
    sleeps past the deadline, and sends its polls one interval
    apart from one interval after its start. *)
Lemma WaitUntilRunning_general res (w' : World H) :
  WaitUntilRunning c ctx name timeout w = (res, w') ->
  res <> OutOfFuel /\
  t0 <= now w' <= Z.max t0 d /\
  exists m rest,
    calls w' = calls w ++ pollCalls ctxTimeout name t0 m ++ rest /\
    (rest = [] \/ rest = [(now w', CallInspect ctx name)]).
Proof.
  unfold WaitUntilRunning. intros E.
  apply (loop_general ctx ctxTimeout name timeout d deadline_doneAt) in E.
  destruct E as (En & Ec & Ef). split; [|split; assumption].
  apply Ef. unfold ticksBefore. rewrite deadline_doneAt. lia.
Qed.

End Wait.

End Waiting.

Section WaitClaims.
Context {H : Type} (c : Client H).

(** What holds of the polling, on a clock that advances in [select]
    only.  Take a wait entered at [t0] under a context done at [d], and
    suppose its first [n] polls observe a container that is not
    running.  Polls are sent one interval apart, the first one
    interval after [t0].  If poll [n] is due and observes the container
    running, the wait returns nil at that tick, which is no later
    than [d].  If [n] is the number of polls due, the wait returns the
    timeout error at the deadline (at once when the deadline is not in
    the future), but only when the inspection made then returns a
    populated record.  In every run the wait ends and returns no later
    than the deadline, hence within one interval of it. *)
Theorem WaitUntilRunning_polls_until_deadline ctx name timeout (w : World H) n :
  let t0 := now w in
  let ctxTimeout := WithTimeout ctx timeout t0 in
  let d := doneAt ctxTimeout in
  let due := pollsDue t0 d (sched w 0%nat) in
  (forall k, (k < n)%nat -> poll c ctxTimeout name k (host w) = Returns (false, None)) ->
  ((n < due)%nat -> poll c ctxTimeout name n (host w) = Returns (true, None) ->
     exists w',
       WaitUntilRunning c ctx name timeout w = (Returns None, w') /\
       now w' = t0 + Z.of_nat (S n) * interval /\ t0 + interval <= now w' <= d /\
       calls w' = calls w ++ pollCalls ctxTimeout name t0 (S n)) /\
  (n = due -> Base (fst (fst (diagnostic c ctx ctxTimeout name due (host w)))) <> None ->
     exists w',
       WaitUntilRunning c ctx name timeout w = (Returns (Some (errTimeout c timeout)), w') /\
       now w' = Z.max t0 d /\
       calls w' = calls w ++ pollCalls ctxTimeout name t0 due
                          ++ [(Z.max t0 d, CallInspect ctx name)]) /\
  (forall res w',
     WaitUntilRunning c ctx name timeout w = (res, w') ->
     res <> OutOfFuel /\
     now w' <= Z.max t0 d /\ (now w' = t0 \/ now w' <= d + interval) /\
     exists m rest,
       calls w' = calls w ++ pollCalls ctxTimeout name t0 m ++ rest /\
       (rest = [] \/ rest = [(now w', CallInspect ctx name)])).
Proof.
  pose proof interval_pos as Hi.
  intros t0 ctxTimeout d due. subst t0 ctxTimeout d due. intros Hidle.
  split; [|split].
  - intros Hn Hrun.
    rewrite (WaitUntilRunning_at_poll c ctx name timeout w n Hidle Hn), Hrun.
    destruct (afterPolls_fields c (WithTimeout ctx timeout (now w)) name
                (doneAt (WithTimeout ctx timeout (now w))) (S n) w) as (_ & Pn & Pc & _).
    eexists. split; [reflexivity|]. rewrite Pn, Pc.
    split; [reflexivity|]. split; [|reflexivity].
    pose proof (due_fires ctx timeout w n Hn) as F. unfold fires in F.
    assert (0 <= Z.of_nat n * interval) by nia.
    rewrite Nat2Z.inj_succ in *. lia.
  - intros -> Hdiag.
    destruct (WaitUntilRunning_at_deadline c ctx name timeout w Hidle)
      as (w' & E & En & _ & Ec).
    destruct (Base _); [|contradiction]. exists w'. auto.
  - intros res w' E.
    apply WaitUntilRunning_general in E.
    destruct E as (Ef & En & Ec). split; [exact Ef|]. split; [lia|].
    split; [lia|exact Ec].
Qed.

(** C4, where the code departs from it.  Take a container that is not
    on the host for the whole wait.  No poll fails and no poll observes
    the container running: [IsRunning] turns the not-found error into
    (false, nil), so the wait polls until the deadline.  The inspection
    made then fails as well, [State] is read through the nil embedded
    pointer of the zero [ContainerJSON], and the wait panics at the
    deadline: it returns no timeout error, and no error at all. *)
Theorem WaitUntilRunning_absent_container_panics ctx name timeout (w : World H) :
  let t0 := now w in
  let ctxTimeout := WithTimeout ctx timeout t0 in
  let d := doneAt ctxTimeout in
  let due := pollsDue t0 d (sched w 0%nat) in
  (forall k, (k <= due)%nat -> absent c name (hostAfter c ctxTimeout name k (host w))) ->
  (forall k, (k < due)%nat -> poll c ctxTimeout name k (host w) = Returns (false, None)) /\
  (exists w',
     WaitUntilRunning c ctx name timeout w = (Panics nilDereference, w') /\
     now w' = Z.max t0 d /\
     calls w' = calls w ++ pollCalls ctxTimeout name t0 due
                        ++ [(Z.max t0 d, CallInspect ctx name)]) /\
  fst (WaitUntilRunning c ctx name timeout w) <> Returns (Some (errTimeout c timeout)) /\
  (forall r, fst (WaitUntilRunning c ctx name timeout w) <> Returns r).
Proof.
  intros t0 ctxTimeout d due. subst t0 ctxTimeout d due. intros Habs.
  assert (Hidle : forall k,
            (k < pollsDue (now w) (doneAt (WithTimeout ctx timeout (now w)))
                   (sched w 0%nat))%nat ->
            poll c (WithTimeout ctx timeout (now w)) name k (host w)
            = Returns (false, None)).
  { intros k Hk.
    destruct (Habs k ltac:(lia) (WithTimeout ctx timeout (now w))) as (err & Ei & Enf).
    unfold poll, IsRunning, GetContainer, bind, call. simpl.
    destruct (ContainerInspect c _ name _) as [[cj e] h]. simpl in Ei.
    injection Ei as -> ->. simpl. rewrite Enf. reflexivity. }
  destruct (WaitUntilRunning_at_deadline c ctx name timeout w Hidle)
    as (w' & E & En & _ & Ec).
  destruct (Habs _ (Nat.le_refl _) ctx) as (err & Ei & _).
  unfold diagnostic in E. rewrite Ei in E. simpl in E.
  split; [exact Hidle|]. split; [exists w'; auto|].
  rewrite E. split; discriminate.
Qed.

(** A failed query ends the wait with the error of the query, wrapped;
    no later poll and no inspection follow it. *)
Lemma WaitUntilRunning_query_failure ctx name timeout (w : World H) n b err :
  let t0 := now w in
  let ctxTimeout := WithTimeout ctx timeout t0 in
  let d := doneAt ctxTimeout in
  (forall k, (k < n)%nat -> poll c ctxTimeout name k (host w) = Returns (false, None)) ->
  (n < pollsDue t0 d (sched w 0%nat))%nat ->
  poll c ctxTimeout name n (host w) = Returns (b, Some err) ->
  exists w',
    WaitUntilRunning c ctx name timeout w
    = (Returns (Some (errors.Wrap err "failed to check if container is running")), w') /\
    errors.UnwrapAll (errors.Wrap err "failed to check if container is running")
    = errors.UnwrapAll err /\
    calls w' = calls w ++ pollCalls ctxTimeout name t0 (S n).
Proof.
  intros t0 ctxTimeout d. subst t0 ctxTimeout d. intros Hidle Hn Hfail.
  rewrite (WaitUntilRunning_at_poll c ctx name timeout w n Hidle Hn), Hfail.
  destruct (afterPolls_fields c (WithTimeout ctx timeout (now w)) name
              (doneAt (WithTimeout ctx timeout (now w))) (S n) w) as (_ & _ & Pc & _).
  eexists. split; [destruct b; reflexivity|]. split; [reflexivity|exact Pc].
Qed.

(** C5, where the code departs from it.  When the deadline passes
    and the diagnostic inspection fails the way the Docker client
    fails, returning the zero [ContainerJSON] with its error, the
    wait does not return the timeout error: reading [State] through
    the nil embedded pointer panics. *)
Theorem WaitUntilRunning_failed_diagnostic_panics ctx name timeout (w : World H) err :
  let t0 := now w in
  let ctxTimeout := WithTimeout ctx timeout t0 in
  let d := doneAt ctxTimeout in
  let due := pollsDue t0 d (sched w 0%nat) in
  (forall k, (k < due)%nat -> poll c ctxTimeout name k (host w) = Returns (false, None)) ->
  fst (diagnostic c ctx ctxTimeout name due (host w)) = (zeroContainerJSON, Some err) ->
  fst (WaitUntilRunning c ctx name timeout w) = Panics nilDereference /\
  fst (WaitUntilRunning c ctx name timeout w) <> Returns (Some (errTimeout c timeout)).
Proof.
  intros t0 ctxTimeout d due. subst t0 ctxTimeout d due. intros Hidle Hdiag.
  destruct (WaitUntilRunning_at_deadline c ctx name timeout w Hidle) as (w' & E & _).
  rewrite Hdiag in E. rewrite E.
  split; [reflexivity|discriminate].
Qed.

End WaitClaims.

(** ** The specification reaches the host *)

Section Create.
Context {H : Type} (c : Client H).

(** Once [StartEnvd] has built a specification, its next request hands
    that specification to the host under the container's name. *)
Lemma StartEnvd_sends_spec
    ctx tag name buildContext gpuEnabled numGPUs sshPortInHost g timeout opts
    (w w1 : World H) config hostConfig :
  buildSpec c tag name buildContext gpuEnabled numGPUs sshPortInHost g opts w
    = (Returns (inr (config, hostConfig)), w1) ->
  exists res w' rest,
    StartEnvd c ctx tag name buildContext gpuEnabled numGPUs sshPortInHost g timeout opts w
      = (res, w') /\
    calls w' = calls w1 ++ (now w1, CallCreate ctx config hostConfig name) :: rest.
Proof.
  intros B. unfold StartEnvd, bind. rewrite B. unfold call at 1.
  destruct (ContainerCreate c ctx config hostConfig name (host w1)) as [[resp [e|]] h2];
    simpl.
  { eexists _, _, _. split; reflexivity. }
  unfold call at 1. simpl.
  destruct (ContainerStart c ctx (ID resp) h2) as [[e|] h3]; simpl.
  { match goal with
    | |- context [strings.Contains ?a ?b] => destruct (strings.Contains a b)
    end; eexists _, _, _; (split; [reflexivity|]);
      simpl; rewrite <- app_assoc; reflexivity. }
  unfold GetContainer, call at 1. simpl.
  destruct (ContainerInspect c ctx (ID resp) h3) as [[cj [e|]] h4]; simpl.
  { eexists _, _, _. split; [reflexivity|]. simpl. rewrite <- !app_assoc. reflexivity. }
  destruct (Base cj) as [base|]; simpl.
  2:{ eexists _, _, _. split; [reflexivity|]. simpl. rewrite <- !app_assoc. reflexivity. }
  destruct (WaitUntilRunning c ctx (Name base) timeout _) as [res5 w5] eqn:E5.
  apply WaitUntilRunning_general in E5. destruct E5 as (_ & _ & m & rest & Ec & _).
  simpl in Ec. rewrite <- !app_assoc in Ec. simpl in Ec.
  destruct res5 as [[e|]|msg|]; try (eexists _, _, _; split; [reflexivity|exact Ec]).
  destruct (Network cj); simpl; eexists _, _, _; (split; [reflexivity|exact Ec]).
Qed.

End Create.

(** ** Concrete runs *)

(** [Destroy] on a container that does not exist, on a stopped one and
    on a host that cannot be reached. *)
Lemma Destroy_classifies_kill_error_witness :
  Destroy fakeClient Background "c1" (fakeWorld absentHost)
  = (Returns ("", None),
     logged (fakeWorld absentHost) (CallKill Background "c1" "KILL") absentHost) /\
  fst (Destroy fakeClient Background "c1" (fakeWorld stoppedHost)) = Returns ("c1", None) /\
  fst (Destroy fakeClient Background "c1" (fakeWorld brokenHost))
  = Returns ("", Some (errWrap (errNew "Cannot connect to the Docker daemon")
                               "failed to kill the container")).
Proof.
  split; [|split].
  - pose proof (Destroy_classifies_kill_error fakeClient Background "c1"
                  (fakeWorld absentHost)) as T.
    cbv zeta in T. destruct T as [T _].
    destruct (T _ eq_refl) as (_ & T2 & _). apply T2; reflexivity.
  - pose proof (Destroy_classifies_kill_error fakeClient Background "c1"
                  (fakeWorld stoppedHost)) as T.
    cbv zeta in T. destruct T as [T _].
    destruct (T _ eq_refl) as (T1 & _). rewrite T1; reflexivity.
  - pose proof (Destroy_classifies_kill_error fakeClient Background "c1"
                  (fakeWorld brokenHost)) as T.
    cbv zeta in T. destruct T as [T _].
    destruct (T _ eq_refl) as (_ & _ & T3). rewrite T3; reflexivity.
Defined.

(** Pausing a paused container, resuming a container that is not
    paused, pausing and resuming one that does not exist, pausing on a
    host that cannot be reached. *)
Lemma Pause_Resume_classify_error_witness :
  fst (PauseContainer fakeClient Background "c1" (fakeWorld pausedHost))
  = Returns ("", None) /\
  fst (ResumeContainer fakeClient Background "c1" (fakeWorld stoppedHost))
  = Returns ("", None) /\
  fst (PauseContainer fakeClient Background "c1" (fakeWorld absentHost))
  = Returns ("", Some (errNew "container not found")) /\
  fst (ResumeContainer fakeClient Background "c1" (fakeWorld absentHost))
  = Returns ("", Some (errNew "container not found")) /\
  fst (PauseContainer fakeClient Background "c1" (fakeWorld brokenHost))
  = Returns ("", Some (errWrap (errNew "Cannot connect to the Docker daemon")
                               "failed to pause container")).
Proof.
  split; [|split; [|split; [|split]]].
  - pose proof (Pause_Resume_classify_error fakeClient Background "c1"
                  (fakeWorld pausedHost)) as T.
    cbv zeta in T. destruct T as [T _].
    destruct (T _ eq_refl) as (T1 & _). rewrite T1; reflexivity.
  - pose proof (Pause_Resume_classify_error fakeClient Background "c1"
                  (fakeWorld stoppedHost)) as T.
    cbv zeta in T. destruct T as (_ & T & _).
    destruct (T _ eq_refl) as (T1 & _). rewrite T1; reflexivity.
  - pose proof (Pause_Resume_classify_error fakeClient Background "c1"
                  (fakeWorld absentHost)) as T.
    cbv zeta in T. destruct T as [T _].
    destruct (T _ eq_refl) as (_ & T2 & _). rewrite T2; reflexivity.
  - pose proof (Pause_Resume_classify_error fakeClient Background "c1"
                  (fakeWorld absentHost)) as T.
    cbv zeta in T. destruct T as (_ & T & _).
    destruct (T _ eq_refl) as (_ & T2 & _). rewrite T2; reflexivity.
  - pose proof (Pause_Resume_classify_error fakeClient Background "c1"
                  (fakeWorld brokenHost)) as T.
    cbv zeta in T. destruct T as [T _].
    destruct (T _ eq_refl) as (_ & _ & T3). rewrite T3; reflexivity.
Defined.

(** Two successes that change nothing and two that do. *)
Lemma noop_success_returns_empty_name_witness :
  fst (PauseContainer fakeClient Background "c1" (fakeWorld pausedHost))
  = Returns ("", None) /\
  fst (Destroy fakeClient Background "c1" (fakeWorld absentHost)) = Returns ("", None) /\
  fst (ResumeContainer fakeClient Background "c1" (fakeWorld pausedHost))
  = Returns ("c1", None) /\
  fst (Destroy fakeClient Background "c1" (fakeWorld stoppedHost)) = Returns ("c1", None).
Proof.
  split; [|split; [|split]].
  - pose proof (noop_success_returns_empty_name fakeClient Background "c1"
                  (fakeWorld pausedHost)) as T.
    cbv zeta in T. destruct T as [T _]. apply (T _ eq_refl). reflexivity.
  - pose proof (noop_success_returns_empty_name fakeClient Background "c1"
                  (fakeWorld absentHost)) as T.
    cbv zeta in T. destruct T as (_ & _ & T & _). apply (T _ eq_refl); reflexivity.
  - pose proof (noop_success_returns_empty_name fakeClient Background "c1"
                  (fakeWorld pausedHost)) as T.
    cbv zeta in T. destruct T as (_ & _ & _ & _ & T & _). apply T. reflexivity.
  - pose proof (noop_success_returns_empty_name fakeClient Background "c1"
                  (fakeWorld stoppedHost)) as T.
    cbv zeta in T. destruct T as (_ & _ & _ & _ & _ & T). apply T; [reflexivity|].
    right. eexists. split; reflexivity.
Defined.

(** C2 as the spec words it fails on the code.  The option [/host:]
    has an empty second segment and is accepted: the call succeeds,
    with a bind mount whose target is empty.  The option [/a:/b:ro]
    splits on its first colon into two non-empty segments and is
    rejected. *)
Lemma mount_option_validation_counterexample :
  (specValidMountOption "/host:" = false /\
   fst (StartEnvd fakeClient Background "img" "c1" "/proj" false 0 2222 noServices
          (10 * Second) ["/host:"] (fakeWorld readyHost))
   = Returns ("/c1", "172.17.0.2", None) /\
   exists config hostConfig w',
     buildSpec fakeClient "img" "c1" "/proj" false 0 2222 noServices ["/host:"]
       (fakeWorld readyHost) = (Returns (inr (config, hostConfig)), w') /\
     Mounts hostConfig =
       [ {| Type_ := "bind"; Source := "/host"; Target := "" |};
         {| Type_ := "bind"; Source := "/proj"; Target := "/home/envd/proj" |} ]) /\
  (specValidMountOption "/a:/b:ro" = true /\
   cutFirstColon "/a:/b:ro" = Some ("/a", "/b:ro") /\
   fst (StartEnvd fakeClient Background "img" "c1" "/proj" false 0 2222 noServices
          (10 * Second) ["/a:/b:ro"] (fakeWorld readyHost))
   = Returns ("", "", Some (errNew "Invalid mount options /a:/b:ro"))).
Proof.
  split; [split; [|split]|split; [|split]]; try (vm_compute; reflexivity).
  with_spec (buildSpec fakeClient "img" "c1" "/proj" false 0 2222 noServices ["/host:"]
               (fakeWorld readyHost))
    ltac:(fun config hostConfig w' => exists config, hostConfig, w').
  split; vm_compute; reflexivity.
Qed.

(** Three mount options of which the second holds two colons, and the
    two good ones alone. *)
Lemma mount_options_split_on_every_colon_witness :
  StartEnvd fakeClient Background "img" "c1" "/proj" false 0 2222 noServices (10 * Second)
    ["/host/data:/data"; "/a:/b:ro"; "/x:/y"] (fakeWorld readyHost)
  = (Returns ("", "", Some (errNew "Invalid mount options /a:/b:ro")), fakeWorld readyHost) /\
  bindMount "/host/data:/data"
  = {| Type_ := "bind"; Source := "/host/data"; Target := "/data" |} /\
  exists config hostConfig w',
    buildSpec fakeClient "img" "c1" "/proj" false 0 2222 noServices
      ["/host/data:/data"; "/x:/y"] (fakeWorld readyHost)
    = (Returns (inr (config, hostConfig)), w') /\
    Mounts hostConfig = [ bindMount "/host/data:/data"; bindMount "/x:/y";
                          contextMount "/proj" ].
Proof.
  pose proof (mount_options_split_on_every_colon fakeClient Background "img" "c1" "/proj"
                false 0 2222 noServices (10 * Second) (fakeWorld readyHost))
    as (_ & T2 & T3 & T4).
  split; [|split].
  - apply (T3 ["/host/data:/data"] "/a:/b:ro" ["/x:/y"]).
    + repeat constructor.
    + reflexivity.
  - apply (T2 "/host/data" "/data"); reflexivity.
  - destruct (T4 ["/host/data:/data"; "/x:/y"]) as [(e & w' & E)|(cfg & hc & w' & E & M)].
    + repeat constructor.
    + discriminate E.
    + exists cfg, hc, w'. split; [exact E|exact M].
Defined.

(** C6 as the spec words it fails on the code.  The allocator hands
    out port 34567 twice: the call succeeds, and the Jupyter and RStudio
    bindings of the specification share that host port. *)
Lemma duplicate_host_port_counterexample :
  fst (StartEnvd fakeClient Background "img" "c1" "/proj" false 0 2222 bothServices
         (10 * Second) [] (fakeWorld dupHost))
  = Returns ("/c1", "172.17.0.2", None) /\
  exists config hostConfig w',
    buildSpec fakeClient "img" "c1" "/proj" false 0 2222 bothServices []
      (fakeWorld dupHost) = (Returns (inr (config, hostConfig)), w') /\
    PortBindings hostConfig !! "8888/tcp"
      = Some [ {| HostIP := "127.0.0.1"; HostPort := "34567" |} ] /\
    PortBindings hostConfig !! "8787/tcp"
      = Some [ {| HostIP := "127.0.0.1"; HostPort := "34567" |} ].
Proof.
  split; [vm_compute; reflexivity|].
  with_spec (buildSpec fakeClient "img" "c1" "/proj" false 0 2222 bothServices []
               (fakeWorld dupHost))
    ltac:(fun config hostConfig w' => exists config, hostConfig, w').
  split; [|split]; vm_compute; reflexivity.
Qed.

(** Both services with an allocator that hands out 34567 and 34568. *)
Lemma port_bindings_follow_the_allocator_witness :
  exists config hostConfig w',
    buildSpec fakeClient "img" "c1" "/proj" false 0 2222 bothServices []
      (fakeWorld twoPortsHost) = (Returns (inr (config, hostConfig)), w') /\
    PortBindings hostConfig !! "2222/tcp" = Some (loopback 2222) /\
    PortBindings hostConfig !! "8888/tcp" = Some (loopback 34567) /\
    PortBindings hostConfig !! "8787/tcp" = Some (loopback 34568) /\
    size (PortBindings hostConfig) = 3%nat.
Proof.
  destruct (port_bindings_follow_the_allocator fakeClient "img" "c1" "/proj" false 0 2222
              bothServices [] (fakeWorld twoPortsHost) 34567
              (snd (fakeGetFreePort twoPortsHost)) 34568
              (snd (fakeGetFreePort (snd (fakeGetFreePort twoPortsHost)))))
    as (cfg & hc & E & B1 & B2 & B3 & Sz & _);
    try discriminate; try reflexivity; try constructor.
  eexists cfg, hc, _. split; [exact E|]. repeat split; assumption.
Defined.

(** Two GPUs asked for. *)
Lemma gpu_device_requests_witness :
  exists config hostConfig w',
    buildSpec fakeClient "img" "c1" "/proj" true 2 2222 noServices []
      (fakeWorld readyHost) = (Returns (inr (config, hostConfig)), w') /\
    DeviceRequests hostConfig
    = [ {| Driver := "nvidia"; Count := 2; Capabilities := gpuCapabilities |} ].
Proof.
  with_spec (buildSpec fakeClient "img" "c1" "/proj" true 2 2222 noServices []
               (fakeWorld readyHost))
    ltac:(fun config hostConfig w' =>
            exists config, hostConfig, w';
            assert (E : buildSpec fakeClient "img" "c1" "/proj" true 2 2222 noServices []
                          (fakeWorld readyHost) = (Returns (inr (config, hostConfig)), w'))
              by (vm_compute; reflexivity);
            split; [exact E|];
            apply (gpu_device_requests fakeClient "img" "c1" "/proj" true 2 2222 noServices
                     [] (fakeWorld readyHost) w' config hostConfig ltac:(lia) E)).
  reflexivity.
Defined.

(** A build context deeper in the tree, written with a trailing
    separator. *)
Lemma working_directory_is_joined_base_name_witness :
  exists config hostConfig w',
    buildSpec fakeClient "img" "c1" "/home/me/work/proj/" false 0 2222 noServices
      ["/host/data:/data"] (fakeWorld readyHost)
    = (Returns (inr (config, hostConfig)), w') /\
    WorkingDir config = "/home/envd/proj" /\
    last (Mounts hostConfig)
    = Some {| Type_ := "bind"; Source := "/home/me/work/proj/";
              Target := "/home/envd/proj" |} /\
    length (Mounts hostConfig) = 2%nat.
Proof.
  with_spec (buildSpec fakeClient "img" "c1" "/home/me/work/proj/" false 0 2222 noServices
               ["/host/data:/data"] (fakeWorld readyHost))
    ltac:(fun config hostConfig w' =>
            exists config, hostConfig, w';
            assert (E : buildSpec fakeClient "img" "c1" "/home/me/work/proj/" false 0 2222
                          noServices ["/host/data:/data"] (fakeWorld readyHost)
                        = (Returns (inr (config, hostConfig)), w'))
              by (vm_compute; reflexivity);
            split; [exact E|];
            destruct (working_directory_is_joined_base_name fakeClient "img" "c1"
                        "/home/me/work/proj/" false 0 2222 noServices ["/host/data:/data"]
                        (fakeWorld readyHost) w' config hostConfig E)
              as ((Wd & La & Le) & _)).
  split; [rewrite Wd; reflexivity|]. split; [rewrite La; reflexivity|exact Le].
Defined.


(** A container seen running at the third poll of a wait of ten
    seconds, and one that never runs in a wait of two and a half. *)
Lemma WaitUntilRunning_polls_until_deadline_witness :
  (exists w',
     WaitUntilRunning fakeClient Background "c1" (10 * Second) (fakeWorld startingHost)
     = (Returns None, w') /\ now w' = 3 * Second) /\
  (exists w',
     WaitUntilRunning fakeClient Background "c1" 2500000000 (fakeWorld stuckHost)
     = (Returns (Some (errTimeout fakeClient 2500000000)), w') /\ now w' = 2500000000).
Proof.
  split.
  - assert (Hidle : forall k, (k < 2)%nat ->
              poll fakeClient (WithTimeout Background (10 * Second) 0) "c1" k startingHost
              = Returns (false, None)).
    { intros [|[|k]] Hk; [reflexivity|reflexivity|lia]. }
    destruct (WaitUntilRunning_polls_until_deadline fakeClient Background "c1"
                (10 * Second) (fakeWorld startingHost) 2 Hidle) as (T & _).
    destruct T as (w' & E & En & _); [vm_compute; lia|reflexivity|].
    exists w'. split; [exact E|rewrite En; reflexivity].
  - assert (Hidle : forall k, (k < 2)%nat ->
              poll fakeClient (WithTimeout Background 2500000000 0) "c1" k stuckHost
              = Returns (false, None)).
    { intros [|[|k]] Hk; [reflexivity|reflexivity|lia]. }
    destruct (WaitUntilRunning_polls_until_deadline fakeClient Background "c1"
                2500000000 (fakeWorld stuckHost) 2 Hidle) as (_ & T & _).
    destruct T as (w' & E & En & _); [reflexivity|discriminate|].
    exists w'. split; [exact E|rewrite En; reflexivity].
Defined.

(** A wait of two seconds and a half for a container that was never
    created. *)
Lemma WaitUntilRunning_absent_container_panics_witness :
  (forall k, (k < 2)%nat ->
     poll fakeClient (WithTimeout Background 2500000000 0) "c1" k absentHost
     = Returns (false, None)) /\
  exists w',
    WaitUntilRunning fakeClient Background "c1" 2500000000 (fakeWorld absentHost)
    = (Panics nilDereference, w') /\
    now w' = 2500000000 /\
    calls w' = [ (1000000000, CallInspect (WithTimeout Background 2500000000 0) "c1");
                 (2000000000, CallInspect (WithTimeout Background 2500000000 0) "c1");
                 (2500000000, CallInspect Background "c1") ].
Proof.
  assert (Habs : forall k, (k <= 2)%nat ->
            absent fakeClient "c1"
              (hostAfter fakeClient (WithTimeout Background 2500000000 0) "c1" k absentHost)).
  { intros [|[|[|k]]] Hk; [| | |lia]; intros ctx; eexists; split; reflexivity. }
  destruct (WaitUntilRunning_absent_container_panics fakeClient Background "c1" 2500000000
              (fakeWorld absentHost) Habs) as (Hidle & (w' & E & En & Ec) & _).
  split; [exact Hidle|]. exists w'. split; [exact E|]. split; [exact En|exact Ec].
Defined.

(** The container is removed while the wait polls: the inspection made
    at the deadline fails. *)
Lemma WaitUntilRunning_failed_diagnostic_panics_witness :
  fst (WaitUntilRunning fakeClient Background "c1" 2500000000 (fakeWorld goneHost))
  = Panics nilDereference.
Proof.
  assert (Hidle : forall k, (k < 2)%nat ->
            poll fakeClient (WithTimeout Background 2500000000 0) "c1" k goneHost
            = Returns (false, None)).
  { intros [|[|k]] Hk; [reflexivity|reflexivity|lia]. }
  apply (WaitUntilRunning_failed_diagnostic_panics fakeClient Background "c1" 2500000000
           (fakeWorld goneHost)
           (errNew "Error response from daemon: No such container: c1") Hidle).
  reflexivity.
Defined.

(** ** Exists and IsRunning *)

Section QueriesProofs.
Context {H : Type} (c : Client H).

Lemma Exists_eq ctx cname (w : World H) :
  let r := ContainerInspect c ctx cname (host w) in
  Exists c ctx cname w =
  (Returns match snd (fst r) with
           | Some err => if IsErrNotFound c err then (false, None) else (false, Some err)
           | None => (true, None)
           end,
   logged w (CallInspect ctx cname) (snd r)).
Proof.
  intros r. unfold Exists, GetContainer, bind, call, r.
  destruct (ContainerInspect c ctx cname (host w)) as [[cj [e|]] h]; simpl; [|reflexivity].
  destruct (IsErrNotFound c e); reflexivity.
Qed.

Lemma IsRunning_cases ctx cname (w : World H) :
  let r := ContainerInspect c ctx cname (host w) in
  fst (IsRunning c ctx cname w) =
  match snd (fst r) with
  | Some err => Returns (if IsErrNotFound c err then (false, None) else (false, Some err))
  | None =>
      match Base (fst (fst r)) with
      | Some base =>
          match State base with
          | Some state => Returns (Running state, None)
          | None => Panics nilDereference
          end
      | None => Panics nilDereference
      end
  end.
Proof.
  intros r. unfold IsRunning, GetContainer, bind, call, r.
  destruct (ContainerInspect c ctx cname (host w)) as [[cj [e|]] h]; simpl.
  - destruct (IsErrNotFound c e); reflexivity.
  - destruct (Base cj) as [b|]; simpl; [|reflexivity]. destruct (State b); reflexivity.
Qed.

(** A container the host does not find is, for [Exists] and for
    [IsRunning], a container that is not there or not running, with a
    nil error; any other inspection error is returned as it is, not
    wrapped.  A container that [IsRunning] reports running is one that
    [Exists] reports, from the same state of the host.  [Exists] reads
    nothing of the answer and never panics. *)
Theorem Exists_IsRunning_absent_is_not_an_error ctx cname (w : World H) :
  let r := ContainerInspect c ctx cname (host w) in
  (forall err, snd (fst r) = Some err -> IsErrNotFound c err = true ->
     fst (Exists c ctx cname w) = Returns (false, None) /\
     fst (IsRunning c ctx cname w) = Returns (false, None)) /\
  (forall err, snd (fst r) = Some err -> IsErrNotFound c err = false ->
     fst (Exists c ctx cname w) = Returns (false, Some err) /\
     fst (IsRunning c ctx cname w) = Returns (false, Some err)) /\
  (fst (IsRunning c ctx cname w) = Returns (true, None) ->
     fst (Exists c ctx cname w) = Returns (true, None)) /\
  (forall msg, fst (Exists c ctx cname w) <> Panics msg) /\
  snd (Exists c ctx cname w) = snd (IsRunning c ctx cname w).
Proof.
  intros r. pose proof (Exists_eq ctx cname w) as E.
  pose proof (IsRunning_cases ctx cname w) as R. cbv zeta in E, R. fold r in E, R.
  rewrite E, R, IsRunning_eq. simpl. fold r.
  split; [|split; [|split; [|split]]].
  - intros err -> ->. split; reflexivity.
  - intros err -> ->. split; reflexivity.
  - destruct (snd (fst r)) as [e|]; [|reflexivity].
    destruct (IsErrNotFound c e); discriminate.
  - discriminate.
  - reflexivity.
Qed.

(** [Destroy], [PauseContainer] and [ResumeContainer] always return,
    and return either the name they were called with, with a nil error,
    or the empty string: an error never comes with a name. *)
Theorem lifecycle_returns_the_name_or_nothing ctx name (w : World H) :
  nameOrNothing name (Destroy c ctx name w) /\
  nameOrNothing name (PauseContainer c ctx name w) /\
  nameOrNothing name (ResumeContainer c ctx name w).
Proof.
  unfold nameOrNothing. split; [|split].
  - pose proof (Destroy_eq c ctx name w) as D. cbv zeta in D. rewrite D.
    unfold removed.
    destruct (fst (ContainerKill c ctx name "KILL" (host w))) as [e|];
      repeat match goal with
             | |- context [if ?b then _ else _] => destruct b
             | |- context [match fst ?x with _ => _ end] => destruct (fst x)
             end; eexists _, _; (split; [reflexivity|]); auto.
  - pose proof (PauseContainer_eq c ctx name w) as P. cbv zeta in P. rewrite P.
    destruct (fst (ContainerPause c ctx name (host w))) as [e|];
      repeat match goal with
             | |- context [if ?b then _ else _] => destruct b
             end; eexists _, _; (split; [reflexivity|]); auto.
  - pose proof (ResumeContainer_eq c ctx name w) as U. cbv zeta in U. rewrite U.
    destruct (fst (ContainerUnpause c ctx name (host w))) as [e|];
      repeat match goal with
             | |- context [if ?b then _ else _] => destruct b
             end; eexists _, _; (split; [reflexivity|]); auto.
Qed.

End QueriesProofs.

(** ** The ports of a specification *)

Section PortsProofs.
Context {St : Type} (c : Client St).

(** What [buildSpec] sends and how it ends. *)
Lemma buildSpec_requests
    tag name buildContext gpuEnabled numGPUs sshPortInHost g opts (w : World St) :
  exists r w' k,
    buildSpec c tag name buildContext gpuEnabled numGPUs sshPortInHost g opts w
      = (Returns r, w') /\
    calls w' = calls w ++ replicate k (now w, CallGetFreePort) /\
    now w' = now w /\
    match r with
    | inr _ => k = declared g
    | inl _ => (k <= declared g)%nat
    end.
Proof.
  unfold buildSpec, declared.
  destruct (mountLoop 0 opts _) as [err|mo].
  { exists (inl err), w, 0%nat. simpl. rewrite app_nil_r.
    split; [reflexivity|]. split; [reflexivity|]. split; [reflexivity|]. lia. }
  unfold bind. rewrite servicePort_eq.
  destruct (JupyterConfig g); cbv zeta.
  all: repeat match goal with
       | |- context [GetFreePort c ?h] =>
           destruct (GetFreePort c h) as [[? [?|]] ?]; simpl
       end.
  all: try rewrite servicePort_eq.
  all: destruct (RStudioServerConfig g); cbv zeta.
  all: repeat match goal with
       | |- context [GetFreePort c ?h] =>
           destruct (GetFreePort c h) as [[? [?|]] ?]; simpl
       end.
  all: unfold ret.
  all: first
         [ eexists _, _, 0%nat; split; [reflexivity|]; simpl; rewrite ?app_nil_r;
           split; [reflexivity|]; split; [reflexivity|]; (lia || reflexivity)
         | eexists _, _, 1%nat; split; [reflexivity|]; simpl;
           split; [reflexivity|]; split; [reflexivity|]; (lia || reflexivity)
         | eexists _, _, 2%nat; split; [reflexivity|]; simpl; rewrite <- ?app_assoc;
           split; [reflexivity|]; split; [reflexivity|]; (lia || reflexivity) ].
Qed.

(** [buildSpec] always returns.  It sends nothing but requests for a
    free port, at most one per declared service and exactly one per
    declared service when it returns a specification; it takes no time. *)
Theorem buildSpec_asks_one_port_per_service
    tag name buildContext gpuEnabled numGPUs sshPortInHost g opts (w : World St) :
  exists r w' k,
    buildSpec c tag name buildContext gpuEnabled numGPUs sshPortInHost g opts w
      = (Returns r, w') /\
    calls w' = calls w ++ replicate k (now w, CallGetFreePort) /\
    now w' = now w /\
    match r with
    | inr _ => k = declared g
    | inl _ => (k <= declared g)%nat
    end.
Proof. apply buildSpec_requests. Qed.

(** In a built specification the container ports that are bound are
    the ssh port and the exposed ports; the exposed ports are those of
    the declared services; every container port is bound once, on the
    loopback address. *)
Theorem bindings_are_loopback_and_cover_exposed_ports
    tag name buildContext gpuEnabled numGPUs sshPortInHost g opts
    (w w' : World St) config hostConfig :
  buildSpec c tag name buildContext gpuEnabled numGPUs sshPortInHost g opts w
    = (Returns (inr (config, hostConfig)), w') ->
  dom (PortBindings hostConfig)
    = {[ natPort (SSHPortInContainer c) ]} ∪ ExposedPorts config /\
  ExposedPorts config = servicePorts c g /\
  map_Forall (fun _ bs => exists p, bs = [ {| HostIP := "127.0.0.1"; HostPort := Itoa p |} ])
             (PortBindings hostConfig).
Proof.
  unfold buildSpec, servicePorts.
  destruct (mountLoop 0 opts _) as [err|mo]; [discriminate|].
  unfold bind. rewrite servicePort_eq.
  destruct (JupyterConfig g); cbv zeta.
  all: repeat match goal with
       | |- context [GetFreePort c ?h] =>
           destruct (GetFreePort c h) as [[? [?|]] ?]; simpl; [discriminate|]
       end.
  all: rewrite servicePort_eq.
  all: destruct (RStudioServerConfig g); cbv zeta.
  all: repeat match goal with
       | |- context [GetFreePort c ?h] =>
           destruct (GetFreePort c h) as [[? [?|]] ?]; simpl; [discriminate|]
       end.
  all: unfold ret; intros [= <- <- <-]; simpl.
  all: split; [rewrite ?dom_insert_L, dom_empty_L; apply set_eq; intros x; set_unfold; tauto|].
  all: split; [apply set_eq; intros x; set_unfold; tauto|].
  all: repeat (apply map_Forall_insert_2; [eexists; reflexivity|]).
  all: apply map_Forall_empty.
Qed.

(** When the port allocator fails, [StartEnvd] returns its error,
    wrapped, with no name and no address.  It has then sent nothing to
    the Docker host, and after a failure for Jupyter it does not ask for
    the port of RStudio. *)
Theorem StartEnvd_allocator_failure
    ctx tag name buildContext gpuEnabled numGPUs sshPortInHost g timeout opts
    (w : World St) p err h1 :
  Forall (fun o => splitsInTwo o = true) opts ->
  declared g <> 0%nat ->
  GetFreePort c (host w) = ((p, Some err), h1) ->
  StartEnvd c ctx tag name buildContext gpuEnabled numGPUs sshPortInHost g timeout opts w
  = (Returns ("", "", Some (errors.Wrap err "failed to get a free port")),
     logged w CallGetFreePort h1).
Proof.
  intros Hall Hd G. apply StartEnvd_spec_error. unfold buildSpec.
  pose proof (mounts_accepted opts buildContext Hall) as Hm.
  destruct (mountLoop 0 opts _) as [e|mo]; [contradiction|].
  unfold bind, declared in *. rewrite servicePort_eq.
  destruct (JupyterConfig g); cbv zeta.
  - rewrite G. reflexivity.
  - simpl. rewrite servicePort_eq.
    destruct (RStudioServerConfig g); [|simpl in Hd; congruence].
    cbv zeta. rewrite G. reflexivity.
Qed.

End PortsProofs.

(** ** What StartEnvd returns *)

Section StartProofs.
Context {H : Type} (c : Client H).

(** Whenever [StartEnvd] returns an error, the name and the address it
    returns with it are empty. *)
Theorem StartEnvd_error_has_no_name
    ctx tag name buildContext gpuEnabled numGPUs sshPortInHost g timeout opts
    (w w' : World H) s ip err :
  StartEnvd c ctx tag name buildContext gpuEnabled numGPUs sshPortInHost g timeout opts w
    = (Returns (s, ip, Some err), w') ->
  s = "" /\ ip = "".
Proof.
  destruct (buildSpec_requests c tag name buildContext gpuEnabled numGPUs
              sshPortInHost g opts w) as (r & w1 & k & B & _).
  unfold StartEnvd, bind. rewrite B.
  destruct r as [e|[config hostConfig]]; [intros [= <- <- _ _]; auto|].
  unfold call at 1.
  destruct (ContainerCreate c ctx config hostConfig name (host w1)) as [[resp [e|]] h2];
    simpl; [intros [= <- <- _ _]; auto|].
  unfold call at 1. simpl.
  destruct (ContainerStart c ctx (ID resp) h2) as [[e|] h3]; simpl.
  { match goal with
    | |- context [strings.Contains ?a ?b] => destruct (strings.Contains a b)
    end; intros [= <- <- _ _]; auto. }
  unfold GetContainer, call at 1. simpl.
  destruct (ContainerInspect c ctx (ID resp) h3) as [[cj [e|]] h4]; simpl;
    [intros [= <- <- _ _]; auto|].
  destruct (Base cj) as [base|]; simpl; [|discriminate].
  destruct (WaitUntilRunning c ctx (Name base) timeout _) as [[[e|]|msg|] w5];
    try discriminate; [intros [= <- <- _ _]; auto|].
  destruct (Network cj); simpl; discriminate.
Qed.

(** When [StartEnvd] returns a nil error, a specification was built and
    handed to the host, the container was created and started, and the
    wait ended with a nil error.  The name and the address returned are
    those of the one inspection made right after the start, before the
    wait: the container is not inspected again once it runs. *)
Theorem StartEnvd_success
    ctx tag name buildContext gpuEnabled numGPUs sshPortInHost g timeout opts
    (w w' : World H) s ip :
  StartEnvd c ctx tag name buildContext gpuEnabled numGPUs sshPortInHost g timeout opts w
    = (Returns (s, ip, None), w') ->
  exists config hostConfig w1 resp cj base net,
    buildSpec c tag name buildContext gpuEnabled numGPUs sshPortInHost g opts w
      = (Returns (inr (config, hostConfig)), w1) /\
    let k := ContainerCreate c ctx config hostConfig name (host w1) in
    let st := ContainerStart c ctx (ID resp) (snd k) in
    let i := ContainerInspect c ctx (ID resp) (snd st) in
    let w4 := logged (logged (logged w1 (CallCreate ctx config hostConfig name) (snd k))
                             (CallStart ctx (ID resp)) (snd st))
                     (CallInspect ctx (ID resp)) (snd i) in
    fst k = (resp, None) /\ fst st = None /\ fst i = (cj, None) /\
    Base cj = Some base /\ Network cj = Some net /\
    s = Name base /\ ip = IPAddress net /\
    WaitUntilRunning c ctx (Name base) timeout w4 = (Returns None, w').
Proof.
  destruct (buildSpec_requests c tag name buildContext gpuEnabled numGPUs
              sshPortInHost g opts w) as (r & w1 & n & B & _).
  unfold StartEnvd, bind. rewrite B.
  destruct r as [e|[config hostConfig]]; [discriminate|].
  unfold call at 1.
  destruct (ContainerCreate c ctx config hostConfig name (host w1)) as [[resp [e|]] h2] eqn:K;
    simpl; [discriminate|].
  unfold call at 1. simpl.
  destruct (ContainerStart c ctx (ID resp) h2) as [[e|] h3] eqn:S; simpl.
  { match goal with
    | |- context [strings.Contains ?a ?b] => destruct (strings.Contains a b)
    end; discriminate. }
  unfold GetContainer, call at 1. simpl.
  destruct (ContainerInspect c ctx (ID resp) h3) as [[cj [e|]] h4] eqn:I; simpl;
    [discriminate|].
  destruct (Base cj) as [base|] eqn:Bs; simpl; [|discriminate].
  destruct (WaitUntilRunning c ctx (Name base) timeout _) as [[[e|]|msg|] w5] eqn:Wt;
    try discriminate.
  destruct (Network cj) as [net|] eqn:Nt; simpl; [|discriminate].
  intros [= <- <- <-].
  exists config, hostConfig, w1, resp, cj, base, net. split; [reflexivity|].
  cbv zeta. rewrite K. simpl. rewrite S. simpl. rewrite I. simpl.
  repeat split; assumption.
Qed.

(** When the host refuses to create the container, or to inspect it
    once started, [StartEnvd] returns the host's error wrapped and sends
    nothing further: no start after a failed creation, no wait after a
    failed inspection. *)
Theorem StartEnvd_stops_at_the_first_failure
    ctx tag name buildContext gpuEnabled numGPUs sshPortInHost g timeout opts
    (w w1 : World H) config hostConfig :
  buildSpec c tag name buildContext gpuEnabled numGPUs sshPortInHost g opts w
    = (Returns (inr (config, hostConfig)), w1) ->
  let k := ContainerCreate c ctx config hostConfig name (host w1) in
  let wk := logged w1 (CallCreate ctx config hostConfig name) (snd k) in
  let resp := fst (fst k) in
  let st := ContainerStart c ctx (ID resp) (snd k) in
  let ws := logged wk (CallStart ctx (ID resp)) (snd st) in
  let i := ContainerInspect c ctx (ID resp) (snd st) in
  let wi := logged ws (CallInspect ctx (ID resp)) (snd i) in
  (forall err, snd (fst k) = Some err ->
     StartEnvd c ctx tag name buildContext gpuEnabled numGPUs sshPortInHost g timeout opts w
     = (Returns ("", "", Some (errors.Wrap err "failed to create the container")), wk)) /\
  (forall err, snd (fst k) = None -> fst st = None -> snd (fst i) = Some err ->
     StartEnvd c ctx tag name buildContext gpuEnabled numGPUs sshPortInHost g timeout opts w
     = (Returns ("", "", Some (errors.Wrap err "failed to inspect the container")), wi)).
Proof.
  intros B k wk resp st ws i wi. subst wi ws wk. subst i st resp k.
  split.
  - intros err K. unfold StartEnvd, bind. rewrite B. unfold call at 1.
    destruct (ContainerCreate c ctx config hostConfig name (host w1)) as [[resp e] h2].
    simpl in *. subst e. reflexivity.
  - intros err K St In. unfold StartEnvd, bind. rewrite B. unfold call at 1.
    destruct (ContainerCreate c ctx config hostConfig name (host w1)) as [[resp e] h2].
    simpl in *. subst e. unfold call at 1. simpl.
    destruct (ContainerStart c ctx (ID resp) h2) as [e h3]. simpl in *. subst e.
    unfold GetContainer, call at 1. simpl.
    destruct (ContainerInspect c ctx (ID resp) h3) as [[cj e] h4]. simpl in *. subst e.
    reflexivity.
Qed.

End StartProofs.

(** ** The working directory *)

Lemma Split_fields_without_sep s sep :
  Forall (fun e => countByte e sep = 0%nat) (strings.Split s sep).
Proof.
  induction s as [|x s IH]; simpl; [repeat constructor|].
  destruct (Ascii.eqb x sep) eqn:E; [constructor; [reflexivity|exact IH]|].
  destruct (strings.Split s sep) as [|f fs]; [repeat constructor; simpl; now rewrite E|].
  inversion IH as [|? ? Hf Hfs]; subst.
  constructor; [simpl; rewrite E, Hf; reflexivity|exact Hfs].
Qed.

(** A base name is [.], the separator, or a non-empty path element
    without a separator. *)
Lemma Base_cases path :
  filepath.Base path = "." \/ filepath.Base path = "/" \/
  (filepath.Base path <> "" /\ countByte (filepath.Base path) "/"%char = 0%nat).
Proof.
  unfold filepath.Base. destruct path as [|x p]; [left; reflexivity|].
  set (l := strings.Split (String x p) filepath.slash).
  destruct (rev (filter _ l)) as [|e es] eqn:R; [right; left; reflexivity|].
  right; right.
  assert (He : e ∈ filter (fun e => negb (filepath.isEmpty e) = true) l).
  { apply elem_of_reverse. unfold reverse. fold (rev (A := string)).
    rewrite <- rev_alt in *. rewrite R. left. }
  apply list_elem_of_filter in He. destruct He as [Hne Hin]. split.
  - intros ->. discriminate Hne.
  - pose proof (Split_fields_without_sep (String x p) filepath.slash) as F.
    rewrite Forall_forall in F. apply F, Hin.
Qed.

(** An ordinary path element joined to /home/envd. *)
Lemma Join_home_envd b :
  b <> "" -> b <> "." -> b <> ".." -> countByte b "/"%char = 0%nat ->
  filepath.Join ["/home/envd"; b] = "/home/envd/" +:+ b.
Proof.
  intros Hne Hd Hdd Hs.
  apply String.eqb_neq in Hne, Hd, Hdd.
  unfold filepath.Join.
  rewrite filter_cons_True by reflexivity.
  rewrite filter_cons_True by (unfold filepath.isEmpty; rewrite Hne; reflexivity).
  rewrite filter_nil.
  unfold filepath.Clean. simpl.
  change ("" +:+ b) with b. rewrite (Split_no_sep b filepath.slash Hs). simpl.
  unfold filepath.isEmpty, filepath.isDot, filepath.isDotDot.
  rewrite Hne, Hd, Hdd. reflexivity.
Qed.

Section WorkingDirProofs.
Context {H : Type} (c : Client H).

(** The working directory of a built specification is the directory of
    /home/envd named after the last element of the build context.  The
    exceptions are a build context that is empty, ends in [.] or holds
    separators only, which gives /home/envd itself, and one that ends in
    [..], which gives /home. *)
Theorem working_directory_is_a_child_of_home
    tag name buildContext gpuEnabled numGPUs sshPortInHost g opts
    (w w' : World H) config hostConfig :
  buildSpec c tag name buildContext gpuEnabled numGPUs sshPortInHost g opts w
    = (Returns (inr (config, hostConfig)), w') ->
  let b := fileutil.Base buildContext in
  (b = "." \/ b = "/" -> WorkingDir config = "/home/envd") /\
  (b = ".." -> WorkingDir config = "/home") /\
  (b <> "." -> b <> ".." -> b <> "/" ->
     countByte b "/"%char = 0%nat /\ WorkingDir config = "/home/envd/" +:+ b).
Proof.
  intros E b. apply buildSpec_inr in E. destruct E as (_ & _ & _ & Wd & _).
  rewrite Wd. fold b. split; [|split].
  - intros [->| ->]; reflexivity.
  - intros ->. reflexivity.
  - intros Hd Hdd Hs. destruct (Base_cases buildContext) as [B|[B|[Bne Bs]]];
      try contradiction.
    split; [exact Bs|]. apply Join_home_envd; assumption.
Qed.

End WorkingDirProofs.

(** ** More on WaitUntilRunning *)

Section WaitMore.
Context {H : Type} (c : Client H).

Section LoopMore.
Variables (ctx ctxTimeout : Ctx) (name : string) (timeout d : Z).
Hypothesis deadline_d : deadline ctxTimeout = Some d.

Local Abbreviation loop fuel := (WaitUntilRunning_loop c fuel ctx ctxTimeout name timeout).

(** The ticks after the first, seen from the world after the first
    poll. *)
Lemma fires_after_poll m (w : World H) :
  fires d 1 w -> (m = 0%nat \/ fires d m (afterPoll c ctxTimeout name d w)) ->
  fires d (S m) w.
Proof.
  pose proof interval_pos as Hi. intros F1 [->|F]; [exact F1|].
  destruct (afterPoll_fields c ctxTimeout name d w) as (_ & Pn & _ & Ps).
  destruct m as [|m]; [exact F1|].
  unfold fires in *. rewrite Pn in F.
  destruct F as [F|[F P]]; [left; lia|right].
  split; [lia|]. rewrite Ps in P by nia. exact P.
Qed.

(** The polls the loop sends are polls whose tick fires. *)
Lemma loop_polls_fire fuel : forall (w w' : World H) res,
  loop fuel w = (res, w') ->
  exists m rest,
    calls w' = calls w ++ pollCalls ctxTimeout name (now w) m ++ rest /\
    (rest = [] \/ rest = [(now w', CallInspect ctx name)]) /\
    (m = 0%nat \/ fires d m w).
Proof.
  induction fuel as [|fuel IH]; intros w w' res E.
  { simpl in E. injection E as <- <-. exists 0%nat, []. rewrite !app_nil_r. auto. }
  destruct (fires_or_expires d w) as [F|X].
  - rewrite (loop_tick c ctx ctxTimeout name timeout d deadline_d fuel w F) in E.
    destruct (afterPoll_fields c ctxTimeout name d w) as (_ & Pn & Pc & _).
    assert (T : forall r, (r, afterPoll c ctxTimeout name d w) = (res, w') ->
                exists m rest,
                  calls w' = calls w ++ pollCalls ctxTimeout name (now w) m ++ rest /\
                  (rest = [] \/ rest = [(now w', CallInspect ctx name)]) /\
                  (m = 0%nat \/ fires d m w)).
    { intros r [= <- <-]. exists 1%nat, []. rewrite Pc, app_nil_r. auto. }
    destruct (poll c ctxTimeout name 0 (host w)) as [[[|] [e|]]| |];
      try (apply (T _ E)).
    apply IH in E. destruct E as (m & rest & Ec & Er & Ef).
    exists (S m), rest. split; [|split; [exact Er|right; apply fires_after_poll; auto]].
    rewrite Ec, Pc, Pn. simpl. rewrite <- app_assoc. reflexivity.
  - destruct (loop_done c ctx ctxTimeout name timeout d deadline_d fuel w X)
      as (w1 & E1 & _ & Hn & Hc).
    rewrite E1 in E. injection E as <- <-. simpl. rewrite Hn, Hc.
    exists 0%nat, [(Z.max (now w) d, CallInspect ctx name)]. simpl. auto.
Qed.

(** The loop returns nil only from a poll that observes the container
    running, after polls that observe it not running. *)
Lemma loop_success fuel : forall (w w' : World H),
  loop fuel w = (Returns None, w') ->
  exists n,
    (forall k, (k < n)%nat -> poll c ctxTimeout name k (host w) = Returns (false, None)) /\
    poll c ctxTimeout name n (host w) = Returns (true, None) /\
    fires d (S n) w /\
    w' = afterPolls c ctxTimeout name d (S n) w.
Proof.
  induction fuel as [|fuel IH]; intros w w' E; [discriminate|].
  destruct (fires_or_expires d w) as [F|X].
  - rewrite (loop_tick c ctx ctxTimeout name timeout d deadline_d fuel w F) in E.
    destruct (afterPoll_fields c ctxTimeout name d w) as (Ph & _).
    destruct (poll c ctxTimeout name 0 (host w)) as [[[|] [e|]]| |] eqn:P0;
      try discriminate.
    + injection E as <-. exists 0%nat. split; [intros k Hk; lia|]. auto.
    + apply IH in E. destruct E as (n & Hidle & Hrun & Hf & ->).
      rewrite Ph in Hidle, Hrun. exists (S n). split; [|split; [|split]].
      * intros [|k] Hk; [exact P0|]. rewrite poll_S. apply Hidle. lia.
      * rewrite poll_S. exact Hrun.
      * apply fires_after_poll; auto.
      * reflexivity.
  - destruct (loop_done c ctx ctxTimeout name timeout d deadline_d fuel w X)
      as (w1 & E1 & _).
    rewrite E1 in E. destruct (Base _); discriminate.
Qed.

(** The loop returns two kinds of errors: the timeout error, and the
    error of a failed query, wrapped. *)
Lemma loop_errors fuel : forall (w w' : World H) e,
  loop fuel w = (Returns (Some e), w') ->
  e = errTimeout c timeout \/
  exists n b err,
    poll c ctxTimeout name n (host w) = Returns (b, Some err) /\
    e = errors.Wrap err "failed to check if container is running".
Proof.
  induction fuel as [|fuel IH]; intros w w' e E; [discriminate|].
  destruct (fires_or_expires d w) as [F|X].
  - rewrite (loop_tick c ctx ctxTimeout name timeout d deadline_d fuel w F) in E.
    destruct (afterPoll_fields c ctxTimeout name d w) as (Ph & _).
    destruct (poll c ctxTimeout name 0 (host w)) as [[[|] [err|]]| |] eqn:P0;
      try discriminate.
    + injection E as <- _. right. exists 0%nat, true, err. auto.
    + injection E as <- _. right. exists 0%nat, false, err. auto.
    + apply IH in E. destruct E as [E|(n & b & err & P & E)]; [left; exact E|right].
      exists (S n), b, err. rewrite poll_S, <- Ph. auto.
  - destruct (loop_done c ctx ctxTimeout name timeout d deadline_d fuel w X)
      as (w1 & E1 & _).
    rewrite E1 in E. destruct (Base _); [|discriminate].
    injection E as <- _. left. reflexivity.
Qed.

End LoopMore.

Section WaitMoreAt.
Variables (ctx : Ctx) (name : string) (timeout : Z) (w : World H).

Local Abbreviation t0 := (now w).
Local Abbreviation ctxTimeout := (WithTimeout ctx timeout (now w)).
Local Abbreviation d := (doneAt (WithTimeout ctx timeout (now w))).
Local Abbreviation due := (pollsDue (now w) d (sched w 0%nat)).

Lemma doneAt_le : d <= t0 + timeout.
Proof. unfold doneAt, WithTimeout. simpl. destruct (deadline ctx); lia. Qed.

Lemma fires_le_due m : (1 <= m)%nat -> fires d m w -> (m <= due)%nat.
Proof.
  pose proof interval_pos as Hi. unfold fires, pollsDue. intros Hm F.
  destruct (Z.leb_spec d t0) as [L|L]; [nia|].
  destruct (ticks_before (d - t0) ltac:(lia)) as (Q0 & Q1 & Q2 & Q3 & _).
  destruct F as [F|[F P]].
  - assert (Z.of_nat m <= (d - t0 - 1) / interval)
      by (apply Z.div_le_lower_bound; lia).
    lia.
  - rewrite P.
    assert (M : (d - t0) mod interval = 0)
      by (replace (d - t0) with (Z.of_nat m * interval) by lia; apply Z.mod_mul; lia).
    rewrite M. simpl. apply Q3 in M. nia.
Qed.

End WaitMoreAt.

(** [WaitUntilRunning] only inspects the container it waits for.  The
    polls it sends number at most those due before the deadline, hence
    at most the whole intervals that fit in the timeout; they are
    followed by at most one more inspection. *)
Theorem WaitUntilRunning_polls_are_bounded ctx name timeout (w w' : World H) res :
  WaitUntilRunning c ctx name timeout w = (res, w') ->
  let ctxTimeout := WithTimeout ctx timeout (now w) in
  let d := doneAt ctxTimeout in
  exists m rest,
    calls w' = calls w ++ pollCalls ctxTimeout name (now w) m ++ rest /\
    (rest = [] \/ rest = [(now w', CallInspect ctx name)]) /\
    (m <= pollsDue (now w) d (sched w 0%nat))%nat /\
    Z.of_nat m * interval <= Z.max 0 timeout.
Proof.
  pose proof interval_pos as Hi.
  unfold WaitUntilRunning. intros E. cbv zeta.
  apply (loop_polls_fire ctx _ name timeout _ (deadline_doneAt ctx timeout w)) in E.
  destruct E as (m & rest & Ec & Er & Ef). exists m, rest.
  split; [exact Ec|]. split; [exact Er|].
  pose proof (doneAt_le ctx timeout w) as Hd.
  destruct Ef as [->|F]; [split; [lia|simpl; lia]|].
  destruct m as [|m]; [split; [lia|simpl; lia]|].
  split; [apply fires_le_due; [lia|exact F]|].
  unfold fires in F. lia.
Qed.

(** [WaitUntilRunning] returns nil only when a poll has observed the
    container running: the polls before it observed it not running, and
    the wait ended at the tick of that poll, without any further
    request. *)
Theorem WaitUntilRunning_success_means_observed_running
    ctx name timeout (w w' : World H) :
  WaitUntilRunning c ctx name timeout w = (Returns None, w') ->
  let ctxTimeout := WithTimeout ctx timeout (now w) in
  exists n,
    (forall k, (k < n)%nat -> poll c ctxTimeout name k (host w) = Returns (false, None)) /\
    poll c ctxTimeout name n (host w) = Returns (true, None) /\
    now w' = now w + Z.of_nat (S n) * interval /\
    calls w' = calls w ++ pollCalls ctxTimeout name (now w) (S n).
Proof.
  unfold WaitUntilRunning. intros E. cbv zeta.
  apply (loop_success ctx _ name timeout _ (deadline_doneAt ctx timeout w)) in E.
  destruct E as (n & Hidle & Hrun & _ & ->). exists n.
  destruct (afterPolls_fields c (WithTimeout ctx timeout (now w)) name
              (doneAt (WithTimeout ctx timeout (now w))) (S n) w) as (_ & Pn & Pc & _).
  auto.
Qed.

(** The errors of [WaitUntilRunning] are of two kinds only: the timeout
    error, which names the timeout it was called with, and the error of
    a failed query wrapped with "failed to check if container is
    running". *)
Theorem WaitUntilRunning_errors ctx name timeout (w w' : World H) e :
  WaitUntilRunning c ctx name timeout w = (Returns (Some e), w') ->
  e = errNew ("timeout " +:+ DurationString c timeout +:+ ": container did not start") \/
  exists n b err,
    poll c (WithTimeout ctx timeout (now w)) name n (host w) = Returns (b, Some err) /\
    e = errors.Wrap err "failed to check if container is running".
Proof.
  unfold WaitUntilRunning. intros E.
  apply (loop_errors ctx _ name timeout _ (deadline_doneAt ctx timeout w)) in E.
  exact E.
Qed.

(** A timeout shorter than the polling interval leaves no time for a
    poll: the wait sleeps until the deadline (not at all when the timeout
    is not positive), sends the one inspection of the deadline, and ends
    with the timeout error even when the container is running. *)
Theorem WaitUntilRunning_short_timeout_never_polls ctx name timeout (w : World H) :
  timeout < interval ->
  let d := doneAt (WithTimeout ctx timeout (now w)) in
  exists w',
    WaitUntilRunning c ctx name timeout w =
    (match Base (fst (fst (ContainerInspect c ctx name (host w)))) with
     | Some _ => Returns (Some (errTimeout c timeout))
     | None => Panics nilDereference
     end, w') /\
    now w' = Z.max (now w) d /\ now w' <= Z.max (now w) (now w + timeout) /\
    calls w' = calls w ++ [(Z.max (now w) d, CallInspect ctx name)].
Proof.
  pose proof interval_pos as Hi. intros Ht d.
  pose proof (doneAt_le ctx timeout w) as Hd. fold d in Hd.
  assert (D0 : pollsDue (now w) d (sched w 0%nat) = 0%nat).
  { unfold pollsDue. destruct (Z.leb_spec d (now w)) as [L|L]; [reflexivity|].
    assert (Q : (d - now w - 1) / interval = 0) by (apply Z.div_small; lia).
    assert (M : (d - now w) mod interval <> 0) by (rewrite Z.mod_small; lia).
    rewrite Q. apply Z.eqb_neq in M. rewrite M. reflexivity. }
  destruct (WaitUntilRunning_at_deadline c ctx name timeout w) as (w' & E & En & _ & Ec).
  { fold d. rewrite D0. intros k Hk. lia. }
  fold d in E, En, Ec. rewrite D0 in E, Ec. unfold diagnostic in E. simpl in E, Ec.
  exists w'. split; [exact E|]. split; [exact En|]. split; [lia|exact Ec].
Qed.

End WaitMore.

(** ** GPUEnabled and StartBuildkitd *)

Section DockerProofs.
Context {H : Type} (c : Client H) (dm : Daemon H).

(** [GPUEnabled] answers true exactly when the daemon lists a runtime
    under the name nvidia and that runtime has a path: no such entry, or
    an entry with an empty path, is a false with a nil error.  When the
    daemon cannot be asked, the answer is false with the daemon's error,
    wrapped. *)
Theorem GPUEnabled_needs_a_runtime_with_a_path ctx (w : World (H * list DaemonCall)) :
  let r := Info dm ctx (fst (host w)) in
  (snd (fst r) = None ->
     exists b,
       fst (GPUEnabled dm ctx w) = Returns (b, None) /\
       (b = true <->
        exists rt, types.Runtimes (fst (fst r)) !! "nvidia" = Some rt /\
                   types.Path rt <> "")) /\
  (forall err, snd (fst r) = Some err ->
     fst (GPUEnabled dm ctx w)
     = Returns (false, Some (errors.Wrap err "failed to get docker info"))).
Proof.
  intros r. unfold GPUEnabled, GetInfo, bind, request. fold r.
  destruct r as [[info [e|]] h]; simpl.
  - split; [discriminate|]. intros err [= <-]. reflexivity.
  - split; [|discriminate]. intros _. eexists. split; [reflexivity|].
    rewrite negb_true_iff, String.eqb_neq.
    destruct (types.Runtimes info !! "nvidia") as [rt|]; simpl.
    + split; [intros Hp; exists rt; auto|intros (rt' & [= <-] & Hp); exact Hp].
    + split; [intros Hp; exfalso; apply Hp; reflexivity|intros (rt & Hrt & _); discriminate].
Qed.

(** The requests of the second half of [StartBuildkitd]. *)
Lemma StartBuildkitd_run_requests ctx tag name mirror (w : World (H * list DaemonCall)) :
  exists res w',
    StartBuildkitd_run c dm ctx tag name mirror w = (res, w') /\
    snd (host w') = snd (host w)
                    ++ [CallCreateBuildkit ctx (buildkitdConfig tag mirror)
                          {| Privileged := true |} name] /\
    (forall s err, res = Returns (s, Some err) -> s = "").
Proof.
  unfold StartBuildkitd_run, bind, request.
  destruct (ContainerCreateBuildkit dm ctx _ _ name (fst (host w))) as [[resp [e|]] h2];
    simpl.
  { eexists _, _. split; [reflexivity|]. simpl. split; [reflexivity|].
    intros s err [= <- _]. reflexivity. }
  unfold call at 1. simpl.
  destruct (ContainerStart c ctx (ID resp) h2) as [[e|] h3]; simpl.
  { eexists _, _. split; [reflexivity|]. simpl. split; [reflexivity|].
    intros s err [= <- _]. reflexivity. }
  unfold GetContainer, call at 1. simpl.
  destruct (ContainerInspect c ctx (ID resp) h3) as [[cj [e|]] h4]; simpl.
  { eexists _, _. split; [reflexivity|]. simpl. split; [reflexivity|].
    intros s err [= <- _]. reflexivity. }
  destruct (Base cj); simpl; eexists _, _; (split; [reflexivity|]); simpl;
    (split; [reflexivity|]); intros s err; discriminate.
Qed.

(** [StartBuildkitd] first asks the daemon for the image.  It pulls the
    image exactly when that request fails with a not-found error, and
    creates the container only when the image was there or the pull
    succeeded.  The container is created under the name given, from the
    image [tag], privileged, and its entrypoint is left alone exactly
    when no mirror is given. *)
Theorem StartBuildkitd_pulls_only_a_missing_image
    ctx tag name mirror (w : World (H * list DaemonCall)) :
  let i := ImageInspectWithRaw dm ctx tag (fst (host w)) in
  let p := ImagePull dm ctx tag (snd i) in
  let create := CallCreateBuildkit ctx (buildkitdConfig tag mirror)
                  {| Privileged := true |} name in
  exists res w',
    StartBuildkitd c dm ctx tag name mirror w = (res, w') /\
    snd (host w') =
      snd (host w) ++
      match fst i with
      | None => [CallImageInspect ctx tag; create]
      | Some err =>
          if IsErrNotFound c err then
            match fst p with
            | None => [CallImageInspect ctx tag; CallImagePull ctx tag; create]
            | Some _ => [CallImageInspect ctx tag; CallImagePull ctx tag]
            end
          else [CallImageInspect ctx tag]
      end /\
    Image (buildkitdConfig tag mirror) = tag /\
    (Entrypoint (buildkitdConfig tag mirror) = [] <-> mirror = "").
Proof.
  intros i p create.
  assert (Hcfg : Image (buildkitdConfig tag mirror) = tag /\
                 (Entrypoint (buildkitdConfig tag mirror) = [] <-> mirror = "")).
  { split; [reflexivity|]. unfold buildkitdConfig. simpl.
    destruct (String.eqb_spec mirror ""); split; intros E; auto; try discriminate E.
    contradiction. }
  unfold StartBuildkitd, bind, request at 1. subst p i.
  destruct (ImageInspectWithRaw dm ctx tag (fst (host w))) as [[e|] h1]; simpl.
  - destruct (IsErrNotFound c e); simpl.
    + unfold request at 1. simpl.
      destruct (ImagePull dm ctx tag h1) as [[e'|] h2]; simpl.
      * eexists _, _. split; [reflexivity|]. simpl. rewrite <- app_assoc. auto.
      * match goal with
        | |- context [StartBuildkitd_run c dm ctx tag name mirror ?w0] =>
            destruct (StartBuildkitd_run_requests ctx tag name mirror w0)
              as (res & w' & E & L & _)
        end.
        exists res, w'. split; [exact E|]. rewrite L. simpl.
        rewrite <- !app_assoc. auto.
    + eexists _, _. split; [reflexivity|]. simpl. auto.
  - match goal with
    | |- context [StartBuildkitd_run c dm ctx tag name mirror ?w0] =>
        destruct (StartBuildkitd_run_requests ctx tag name mirror w0)
          as (res & w' & E & L & _)
    end.
    exists res, w'. split; [exact E|]. rewrite L. simpl.
    rewrite <- !app_assoc. auto.
Qed.

(** Whenever [StartBuildkitd] returns an error, the name it returns with
    it is empty. *)
Theorem StartBuildkitd_error_has_no_name
    ctx tag name mirror (w w' : World (H * list DaemonCall)) s err :
  StartBuildkitd c dm ctx tag name mirror w = (Returns (s, Some err), w') ->
  s = "".
Proof.
  unfold StartBuildkitd, bind, request at 1.
  destruct (ImageInspectWithRaw dm ctx tag (fst (host w))) as [[e|] h1]; simpl.
  - destruct (IsErrNotFound c e); simpl; [|intros [= <- _ _]; reflexivity].
    unfold request at 1. simpl.
    destruct (ImagePull dm ctx tag h1) as [[e'|] h2]; simpl;
      [intros [= <- _ _]; reflexivity|].
    match goal with
    | |- context [StartBuildkitd_run c dm ctx tag name mirror ?w0] =>
        destruct (StartBuildkitd_run_requests ctx tag name mirror w0)
          as (res & w1 & E & _ & N)
    end.
    rewrite E. intros [= -> _]. eapply N. reflexivity.
  - match goal with
    | |- context [StartBuildkitd_run c dm ctx tag name mirror ?w0] =>
        destruct (StartBuildkitd_run_requests ctx tag name mirror w0)
          as (res & w1 & E & _ & N)
    end.
    rewrite E. intros [= -> _]. eapply N. reflexivity.
Qed.

End DockerProofs.

(** ** handleErr *)

Section MainProofs.
Variables (asEvalError asSyntaxError : error -> option string).

(** [handleErr] returns without a word on a nil error and makes the
    process exit with status 1 on any other.  Without the debug flag it
    writes one line, about the root cause alone: the messages the error
    was wrapped with are not shown.  With the flag it first writes the
    whole error. *)
Theorem handleErr_shows_the_root_cause debug (err : error) msg :
  handleErr asEvalError asSyntaxError debug None = ([], None) /\
  snd (handleErr asEvalError asSyntaxError debug (Some err)) = Some 1 /\
  length (fst (handleErr asEvalError asSyntaxError debug (Some err)))
    = (if debug then 2 else 1)%nat /\
  handleErr asEvalError asSyntaxError false (Some (errors.Wrap err msg))
    = handleErr asEvalError asSyntaxError false (Some err) /\
  hd_error (fst (handleErr asEvalError asSyntaxError true (Some (errors.Wrap err msg))))
    = Some ("error: " +:+ (msg +:+ ": " +:+ Error err) +:+ newline) /\
  (asEvalError (errors.UnwrapAll err) = None ->
   asSyntaxError (errors.UnwrapAll err) = None ->
   last (fst (handleErr asEvalError asSyntaxError debug (Some err)))
   = Some ("error: " +:+ Error (errors.UnwrapAll err) +:+ newline)).
Proof.
  unfold handleErr. split; [reflexivity|]. split; [reflexivity|].
  split; [destruct debug; reflexivity|]. split; [reflexivity|].
  split; [reflexivity|].
  intros -> ->. destruct debug; reflexivity.
Qed.

End MainProofs.

(** ** Concrete runs of the functions above *)

(** A container that is not found, a host that cannot be reached and a
    running container. *)
Lemma Exists_IsRunning_absent_is_not_an_error_witness :
  fst (Exists fakeClient Background "c1" (fakeWorld absentHost)) = Returns (false, None) /\
  fst (IsRunning fakeClient Background "c1" (fakeWorld absentHost)) = Returns (false, None) /\
  fst (IsRunning fakeClient Background "c1" (fakeWorld flakyHost))
    = Returns (false, None) /\
  fst (Exists fakeClient Background "c1" (fakeWorld runningHost)) = Returns (true, None).
Proof.
  split; [|split; [|split]].
  - pose proof (Exists_IsRunning_absent_is_not_an_error fakeClient Background "c1"
                  (fakeWorld absentHost)) as T.
    cbv zeta in T. destruct T as [T _]. apply (T _ eq_refl). reflexivity.
  - pose proof (Exists_IsRunning_absent_is_not_an_error fakeClient Background "c1"
                  (fakeWorld absentHost)) as T.
    cbv zeta in T. destruct T as [T _]. apply (T _ eq_refl). reflexivity.
  - reflexivity.
  - pose proof (Exists_IsRunning_absent_is_not_an_error fakeClient Background "c1"
                  (fakeWorld runningHost)) as T.
    cbv zeta in T. destruct T as (_ & _ & T & _). apply T. reflexivity.
Defined.

(** Both services on a host that hands out two ports. *)
Lemma bindings_are_loopback_and_cover_exposed_ports_witness :
  exists config hostConfig w',
    buildSpec fakeClient "img" "c1" "/proj" false 0 2222 bothServices []
      (fakeWorld twoPortsHost) = (Returns (inr (config, hostConfig)), w') /\
    dom (PortBindings hostConfig) = {[ "2222/tcp" ]} ∪ ExposedPorts config /\
    ExposedPorts config = {[ "8888/tcp" ]} ∪ {[ "8787/tcp" ]}.
Proof.
  with_spec (buildSpec fakeClient "img" "c1" "/proj" false 0 2222 bothServices []
               (fakeWorld twoPortsHost))
    ltac:(fun config hostConfig w' =>
            exists config, hostConfig, w';
            assert (E : buildSpec fakeClient "img" "c1" "/proj" false 0 2222 bothServices []
                          (fakeWorld twoPortsHost)
                        = (Returns (inr (config, hostConfig)), w'))
              by (vm_compute; reflexivity);
            split; [exact E|];
            destruct (bindings_are_loopback_and_cover_exposed_ports fakeClient "img" "c1"
                        "/proj" false 0 2222 bothServices [] (fakeWorld twoPortsHost)
                        w' config hostConfig E) as (D & X & _)).
  split; [exact D|exact X].
Defined.

(** Both services on a host without a free port. *)
Lemma StartEnvd_allocator_failure_witness :
  StartEnvd fakeClient Background "img" "c1" "/proj" false 0 2222 bothServices (10 * Second)
    [] (fakeWorld noPortHost)
  = (Returns ("", "", Some (errWrap (errNew "listen tcp :0: no free port")
                                    "failed to get a free port")),
     logged (fakeWorld noPortHost) CallGetFreePort noPortHost).
Proof.
  apply (StartEnvd_allocator_failure fakeClient Background "img" "c1" "/proj" false 0 2222
           bothServices (10 * Second) [] (fakeWorld noPortHost) 0).
  - constructor.
  - discriminate.
  - reflexivity.
Defined.

(** The name is taken on the host. *)
Lemma StartEnvd_error_has_no_name_witness :
  exists s ip err,
    fst (StartEnvd fakeClient Background "img" "c1" "/proj" false 0 2222 bothServices
           (10 * Second) [] (fakeWorld noCreateHost)) = Returns (s, ip, Some err) /\
    s = "" /\ ip = "".
Proof.
  with_run (StartEnvd fakeClient Background "img" "c1" "/proj" false 0 2222 bothServices
              (10 * Second) [] (fakeWorld noCreateHost))
    ltac:(fun a w' =>
            lazymatch a with
            | (?s, ?ip, Some ?err) =>
                exists s, ip, err;
                assert (E : StartEnvd fakeClient Background "img" "c1" "/proj" false 0 2222
                              bothServices (10 * Second) [] (fakeWorld noCreateHost)
                            = (Returns (s, ip, Some err), w'))
                  by (vm_compute; reflexivity);
                split; [rewrite E; reflexivity|];
                exact (StartEnvd_error_has_no_name fakeClient Background "img" "c1" "/proj"
                         false 0 2222 bothServices (10 * Second) [] (fakeWorld noCreateHost)
                         w' s ip err E)
            end).
Defined.

(** A container that runs at the first poll. *)
Lemma StartEnvd_success_witness :
  exists w' base net,
    StartEnvd fakeClient Background "img" "c1" "/proj" false 0 2222 noServices
      (10 * Second) [] (fakeWorld readyHost) = (Returns ("/c1", "172.17.0.2", None), w') /\
    Name base = "/c1" /\ IPAddress net = "172.17.0.2".
Proof.
  with_run (StartEnvd fakeClient Background "img" "c1" "/proj" false 0 2222 noServices
              (10 * Second) [] (fakeWorld readyHost))
    ltac:(fun a w' =>
            assert (E : StartEnvd fakeClient Background "img" "c1" "/proj" false 0 2222
                          noServices (10 * Second) [] (fakeWorld readyHost)
                        = (Returns ("/c1", "172.17.0.2", None), w'))
              by (vm_compute; reflexivity);
            destruct (StartEnvd_success fakeClient Background "img" "c1" "/proj" false 0
                        2222 noServices (10 * Second) [] (fakeWorld readyHost) w'
                        "/c1" "172.17.0.2" E)
              as (config & hostConfig & w1 & resp & cj & base & net & B & T);
            exists w', base, net).
  cbv zeta in T. destruct T as (_ & _ & _ & _ & _ & Hs & Hip & _).
  split; [exact E|]. split; [symmetry; exact Hs|symmetry; exact Hip].
Defined.

(** The name is taken on the host: nothing is sent after the
    creation. *)
Lemma StartEnvd_stops_at_the_first_failure_witness :
  exists w',
    StartEnvd fakeClient Background "img" "c1" "/proj" false 0 2222 noServices
      (10 * Second) [] (fakeWorld noCreateHost)
    = (Returns ("", "", Some (errWrap (createErr_of noCreateHost)
                                      "failed to create the container")), w') /\
    length (calls w') = 1%nat.
Proof.
  with_spec (buildSpec fakeClient "img" "c1" "/proj" false 0 2222 noServices []
               (fakeWorld noCreateHost))
    ltac:(fun config hostConfig w1 =>
            assert (B : buildSpec fakeClient "img" "c1" "/proj" false 0 2222 noServices []
                          (fakeWorld noCreateHost)
                        = (Returns (inr (config, hostConfig)), w1))
              by (vm_compute; reflexivity);
            pose proof (StartEnvd_stops_at_the_first_failure fakeClient Background "img"
                          "c1" "/proj" false 0 2222 noServices (10 * Second) []
                          (fakeWorld noCreateHost) w1 config hostConfig B) as T).
  cbv zeta in T. destruct T as (T & _).
  eexists. split; [apply T; reflexivity|]. reflexivity.
Defined.

(** A build context deeper in the tree. *)
Lemma working_directory_is_a_child_of_home_witness :
  exists config hostConfig w',
    buildSpec fakeClient "img" "c1" "/home/me/work/proj" false 0 2222 noServices []
      (fakeWorld readyHost) = (Returns (inr (config, hostConfig)), w') /\
    WorkingDir config = "/home/envd/proj".
Proof.
  with_spec (buildSpec fakeClient "img" "c1" "/home/me/work/proj" false 0 2222 noServices []
               (fakeWorld readyHost))
    ltac:(fun config hostConfig w' =>
            exists config, hostConfig, w';
            assert (E : buildSpec fakeClient "img" "c1" "/home/me/work/proj" false 0 2222
                          noServices [] (fakeWorld readyHost)
                        = (Returns (inr (config, hostConfig)), w'))
              by (vm_compute; reflexivity);
            split; [exact E|];
            destruct (working_directory_is_a_child_of_home fakeClient "img" "c1"
                        "/home/me/work/proj" false 0 2222 noServices [] (fakeWorld readyHost)
                        w' config hostConfig E) as (_ & _ & T)).
  destruct T as (_ & T); [discriminate|discriminate|discriminate|]. exact T.
Defined.

(** A wait of two seconds and a half for a container that never runs:
    two polls and the inspection of the deadline. *)
Lemma WaitUntilRunning_polls_are_bounded_witness :
  exists m rest,
    calls (snd (WaitUntilRunning fakeClient Background "c1" 2500000000
                  (fakeWorld stuckHost)))
    = pollCalls (WithTimeout Background 2500000000 0) "c1" 0 m ++ rest /\
    (m <= 2)%nat.
Proof.
  destruct (WaitUntilRunning fakeClient Background "c1" 2500000000 (fakeWorld stuckHost))
    as [res w'] eqn:E.
  destruct (WaitUntilRunning_polls_are_bounded fakeClient Background "c1" 2500000000
              (fakeWorld stuckHost) w' res E) as (m & rest & Ec & _ & Hm & _).
  exists m, rest. split; [exact Ec|exact Hm].
Defined.

(** A container seen running at the third poll. *)
Lemma WaitUntilRunning_success_means_observed_running_witness :
  exists n,
    poll fakeClient (WithTimeout Background (10 * Second) 0) "c1" n startingHost
    = Returns (true, None) /\
    now (snd (WaitUntilRunning fakeClient Background "c1" (10 * Second)
                (fakeWorld startingHost)))
    = Z.of_nat (S n) * interval.
Proof.
  with_run (WaitUntilRunning fakeClient Background "c1" (10 * Second)
              (fakeWorld startingHost))
    ltac:(fun a w' =>
            assert (E : WaitUntilRunning fakeClient Background "c1" (10 * Second)
                          (fakeWorld startingHost) = (Returns None, w'))
              by (vm_compute; reflexivity);
            destruct (WaitUntilRunning_success_means_observed_running fakeClient Background
                        "c1" (10 * Second) (fakeWorld startingHost) w' E)
              as (n & _ & Hrun & Hn & _);
            exists n; split; [exact Hrun|rewrite E; exact Hn]).
Defined.

(** A host that loses the connection at the second poll. *)
Lemma WaitUntilRunning_errors_witness :
  exists e,
    fst (WaitUntilRunning fakeClient Background "c1" (10 * Second) (fakeWorld flakyHost))
    = Returns (Some e) /\
    (e = errTimeout fakeClient (10 * Second) \/
     exists err, e = errWrap err "failed to check if container is running").
Proof.
  with_run (WaitUntilRunning fakeClient Background "c1" (10 * Second) (fakeWorld flakyHost))
    ltac:(fun a w' =>
            lazymatch a with
            | Some ?e =>
                exists e;
                assert (E : WaitUntilRunning fakeClient Background "c1" (10 * Second)
                              (fakeWorld flakyHost) = (Returns (Some e), w'))
                  by (vm_compute; reflexivity);
                split; [rewrite E; reflexivity|];
                destruct (WaitUntilRunning_errors fakeClient Background "c1" (10 * Second)
                            (fakeWorld flakyHost) w' e E) as [T|(n & b & err & _ & T)];
                [left; exact T|right; exists err; exact T]
            end).
Defined.

(** Half a second for a container that is running already. *)
Lemma WaitUntilRunning_short_timeout_never_polls_witness :
  exists w',
    WaitUntilRunning fakeClient Background "c1" 500000000 (fakeWorld runningHost)
    = (Returns (Some (errTimeout fakeClient 500000000)), w') /\
    now w' = 500000000 /\
    calls w' = [(500000000, CallInspect Background "c1")].
Proof.
  destruct (WaitUntilRunning_short_timeout_never_polls fakeClient Background "c1" 500000000
              (fakeWorld runningHost) ltac:(reflexivity)) as (w' & E & En & _ & Ec).
  exists w'. split; [exact E|]. split; [exact En|exact Ec].
Defined.

(** A daemon with the NVIDIA runtime, one with runc only, and one that
    does not answer. *)
Lemma GPUEnabled_needs_a_runtime_with_a_path_witness :
  fst (GPUEnabled (fakeDaemon (runcInfo, None) None None) Background (dockerWorld quietHost))
  = Returns (false, None) /\
  fst (GPUEnabled (fakeDaemon (runcInfo, Some (errNew "Cannot connect to the Docker daemon"))
                     None None) Background (dockerWorld quietHost))
  = Returns (false, Some (errWrap (errNew "Cannot connect to the Docker daemon")
                                  "failed to get docker info")) /\
  exists b,
    fst (GPUEnabled (fakeDaemon (nvidiaInfo, None) None None) Background
           (dockerWorld quietHost)) = Returns (b, None) /\
    b = true.
Proof.
  split; [reflexivity|]. split.
  - pose proof (GPUEnabled_needs_a_runtime_with_a_path
                  (fakeDaemon (runcInfo, Some (errNew "Cannot connect to the Docker daemon"))
                     None None) Background (dockerWorld quietHost)) as T.
    cbv zeta in T. destruct T as (_ & T). apply T. reflexivity.
  - pose proof (GPUEnabled_needs_a_runtime_with_a_path
                  (fakeDaemon (nvidiaInfo, None) None None) Background
                  (dockerWorld quietHost)) as T.
    cbv zeta in T. destruct T as (T & _). destruct (T eq_refl) as (b & E & Hb).
    exists b. split; [exact E|]. apply Hb. eexists. split; [reflexivity|discriminate].
Defined.

(** An image that is on the host, and a mirror. *)
Lemma StartBuildkitd_pulls_only_a_missing_image_witness :
  exists w',
    StartBuildkitd fakeClient (fakeDaemon (runcInfo, None) None None) Background
      "moby/buildkit:v0.10.3" "envd_buildkitd" "https://mirror.example" (dockerWorld readyHost)
    = (Returns ("/c1", None), w') /\
    snd (host w')
    = [ CallImageInspect Background "moby/buildkit:v0.10.3";
        CallCreateBuildkit Background
          (buildkitdConfig "moby/buildkit:v0.10.3" "https://mirror.example")
          {| Privileged := true |} "envd_buildkitd" ] /\
    Entrypoint (buildkitdConfig "moby/buildkit:v0.10.3" "https://mirror.example") <> [].
Proof.
  destruct (StartBuildkitd_pulls_only_a_missing_image fakeClient
              (fakeDaemon (runcInfo, None) None None) Background
              "moby/buildkit:v0.10.3" "envd_buildkitd" "https://mirror.example"
              (dockerWorld readyHost)) as (res & w' & E & L & _ & T).
  exists w'. split; [|split; [exact L|]].
  - rewrite E. assert (E' := E). vm_compute in E'. injection E' as <- _. reflexivity.
  - intros N. apply T in N. discriminate N.
Defined.

(** The pull of a missing image fails. *)
Lemma StartBuildkitd_error_has_no_name_witness :
  exists s err,
    fst (StartBuildkitd fakeClient
           (fakeDaemon (runcInfo, None)
              (Some (errNew "Error: No such image: moby/buildkit:v0.10.3 (No such container)"))
              (Some (errNew "net/http: TLS handshake timeout")))
           Background "moby/buildkit:v0.10.3" "envd_buildkitd" "" (dockerWorld readyHost))
    = Returns (s, Some err) /\ s = "".
Proof.
  with_run (StartBuildkitd fakeClient
              (fakeDaemon (runcInfo, None)
                 (Some (errNew "Error: No such image: moby/buildkit:v0.10.3 (No such container)"))
                 (Some (errNew "net/http: TLS handshake timeout")))
              Background "moby/buildkit:v0.10.3" "envd_buildkitd" "" (dockerWorld readyHost))
    ltac:(fun a w' =>
            lazymatch a with
            | (?s, Some ?err) =>
                exists s, err;
                assert (E : StartBuildkitd fakeClient
                              (fakeDaemon (runcInfo, None)
                                 (Some (errNew "Error: No such image: moby/buildkit:v0.10.3 (No such container)"))
                                 (Some (errNew "net/http: TLS handshake timeout")))
                              Background "moby/buildkit:v0.10.3" "envd_buildkitd" ""
                              (dockerWorld readyHost) = (Returns (s, Some err), w'))
                  by (vm_compute; reflexivity);
                split; [rewrite E; reflexivity|];
                exact (StartBuildkitd_error_has_no_name fakeClient _ Background
                         "moby/buildkit:v0.10.3" "envd_buildkitd" "" (dockerWorld readyHost)
                         w' s err E)
            end).
Defined.

(** An error wrapped once, whose root cause is an ordinary error. *)
Lemma handleErr_shows_the_root_cause_witness :
  handleErr (fun _ => None) (fun _ => None) false
    (Some (errWrap (errNew "context default not found") "failed to remove context"))
  = ([ "error: context default not found" +:+ newline ], Some 1).
Proof.
  destruct (handleErr_shows_the_root_cause (fun _ => None) (fun _ => None) false
              (errWrap (errNew "context default not found") "failed to remove context") "")
    as (_ & Hx & Hl & _ & _ & T).
  specialize (T eq_refl eq_refl).
  destruct (handleErr _ _ false _) as [out st]. simpl in *.
  destruct out as [|l [|l' out]]; try discriminate Hl.
  simpl in T. injection T as ->. subst st. reflexivity.
Defined.
